(** * LINE webhook ingestion and dispatch (exit-ai-dev/backend)

    A shallow embedding of [app/routers/line.py] and of the part of
    [app/services/line_service.py] it calls, followed by the properties of
    the webhook pipeline: signature verification, event filtering,
    conversation context, reply and fallback protocol.

    Conventions.
    - A Python [str] is a Rocq [string] holding the UTF-8 encoding of the
      text, so [s.encode('utf-8')] is the list of its bytes and a [str] is
      ASCII-only exactly when every byte is below 128.
    - A Python [bytes] is a [list byte].
    - Values produced by [json.loads] are the inductive [value]; a [dict] is
      an insertion-ordered association list read by its first matching key.
    - Console diagnostics ([print]) are not part of the model. *)

From Stdlib Require Import ZArith QArith Strings.String Strings.Ascii Strings.Byte Bool Lia List.
From Stdlib Require Import Floats.SpecFloat.
Import ListNotations.

Local Open Scope Z_scope.

(** ** hashlib.sha256 (FIPS 180-4) on 32-bit words held in [Z] *)

Module Sha256.

Definition word_mod : Z := 2 ^ 32.

Definition add32 (x y : Z) : Z := (x + y) mod word_mod.

Definition rotr (n x : Z) : Z :=
  Z.lor (Z.shiftr x n) (Z.shiftl x (32 - n) mod word_mod).

Definition Ch (x y z : Z) : Z :=
  Z.lxor (Z.land x y) (Z.land (Z.lxor x (word_mod - 1)) z).

Definition Maj (x y z : Z) : Z :=
  Z.lxor (Z.lxor (Z.land x y) (Z.land x z)) (Z.land y z).

Definition Sigma0 (x : Z) : Z := Z.lxor (Z.lxor (rotr 2 x) (rotr 13 x)) (rotr 22 x).
Definition Sigma1 (x : Z) : Z := Z.lxor (Z.lxor (rotr 6 x) (rotr 11 x)) (rotr 25 x).
Definition sigma0 (x : Z) : Z := Z.lxor (Z.lxor (rotr 7 x) (rotr 18 x)) (Z.shiftr x 3).
Definition sigma1 (x : Z) : Z := Z.lxor (Z.lxor (rotr 17 x) (rotr 19 x)) (Z.shiftr x 10).

(** The first [n] primes, by trial division. *)
Definition is_prime (p : nat) : bool :=
  forallb (fun d => negb (Nat.eqb (Nat.modulo p d) 0)) (seq 2 (p - 2)).

Definition primes (n : nat) : list Z :=
  map Z.of_nat (firstn n (filter is_prime (seq 2 320))).

(** The integer cube root of [n], one bit at a time from bit [bits - 1]. *)
Fixpoint cube_root (bits : nat) (n acc : Z) : Z :=
  match bits with
  | O => acc
  | S b =>
      let candidate := acc + 2 ^ Z.of_nat b in
      if candidate * candidate * candidate <=? n then cube_root b n candidate
      else cube_root b n acc
  end.

(** The round constants: the first 32 bits of the fractional parts of the
    cube roots of the first 64 primes. *)
Definition K : list Z :=
  Eval vm_compute in
    map (fun p => cube_root 36 (p * 2 ^ 96) 0 mod word_mod) (primes 64).

(** The initial hash value: the first 32 bits of the fractional parts of the
    square roots of the first 8 primes. *)
Definition H0 : list Z :=
  Eval vm_compute in map (fun p => Z.sqrt (p * 2 ^ 64) mod word_mod) (primes 8).

Definition byte_val (b : byte) : Z := Z.of_N (Byte.to_N b).

Definition byte_of_Z (z : Z) : byte :=
  match Byte.of_N (Z.to_N (z mod 256)) with
  | Some b => b
  | None => x00
  end.

(** Big-endian encoding of [z] on [n] bytes. *)
Fixpoint be_bytes (n : nat) (z : Z) : list byte :=
  match n with
  | O => []
  | S n' => byte_of_Z (Z.shiftr z (8 * Z.of_nat n')) :: be_bytes n' z
  end.

Fixpoint be_words (bs : list byte) : list Z :=
  match bs with
  | a :: b :: c :: d :: rest =>
      (((byte_val a * 256 + byte_val b) * 256 + byte_val c) * 256 + byte_val d)
        :: be_words rest
  | _ => []
  end.

(** Padding: a 1 bit, zeros up to 56 mod 64, then the bit length on 8 bytes. *)
Definition pad (msg : list byte) : list byte :=
  let len := Z.of_nat (length msg) in
  let zeros := Z.to_nat ((55 - len) mod 64) in
  msg ++ x80 :: repeat x00 zeros ++ be_bytes 8 (8 * len).

(** The message schedule: [w] holds W_0 .. W_(t-1); [n] more words follow. *)
Fixpoint schedule (n : nat) (w : list Z) : list Z :=
  match n with
  | O => w
  | S n' =>
      let t := length w in
      let at_ (i : nat) := nth (t - i) w 0 in
      schedule n'
        (w ++ [add32 (add32 (sigma1 (at_ 2%nat)) (at_ 7%nat))
                     (add32 (sigma0 (at_ 15%nat)) (at_ 16%nat))])
  end.

Record registers : Type := Regs { ra : Z; rb : Z; rc : Z; rd : Z;
                                  re : Z; rf : Z; rg : Z; rh : Z }.

Definition round (r : registers) (kw : Z * Z) : registers :=
  let '(k, w) := kw in
  let t1 := add32 (add32 (add32 (rh r) (Sigma1 (re r)))
                         (add32 (Ch (re r) (rf r) (rg r)) k)) w in
  let t2 := add32 (Sigma0 (ra r)) (Maj (ra r) (rb r) (rc r)) in
  Regs (add32 t1 t2) (ra r) (rb r) (rc r) (add32 (rd r) t1) (re r) (rf r) (rg r).

Definition regs_of (h : list Z) : registers :=
  Regs (nth 0 h 0) (nth 1 h 0) (nth 2 h 0) (nth 3 h 0)
       (nth 4 h 0) (nth 5 h 0) (nth 6 h 0) (nth 7 h 0).

Definition compress (h : list Z) (block : list byte) : list Z :=
  let w := schedule 48 (be_words block) in
  let r := fold_left round (combine K w) (regs_of h) in
  [ add32 (nth 0 h 0) (ra r); add32 (nth 1 h 0) (rb r);
    add32 (nth 2 h 0) (rc r); add32 (nth 3 h 0) (rd r);
    add32 (nth 4 h 0) (re r); add32 (nth 5 h 0) (rf r);
    add32 (nth 6 h 0) (rg r); add32 (nth 7 h 0) (rh r) ].

(** One 64-byte block per unit of [fuel]. *)
Fixpoint blocks (fuel : nat) (h : list Z) (bs : list byte) : list Z :=
  match fuel, bs with
  | S fuel', _ :: _ => blocks fuel' (compress h (firstn 64 bs)) (skipn 64 bs)
  | _, _ => h
  end.

Definition digest (msg : list byte) : list byte :=
  let p := pad msg in
  flat_map (be_bytes 4) (blocks (length p) H0 p).

End Sha256.

(** ** hmac.new(key, msg, hashlib.sha256).digest() (RFC 2104) *)

Module Hmac.

Definition block_size : nat := 64.

Definition xor_with (c : Z) (bs : list byte) : list byte :=
  map (fun b => Sha256.byte_of_Z (Z.lxor (Sha256.byte_val b) c)) bs.

Definition block_key (key : list byte) : list byte :=
  let k := if (block_size <? length key)%nat then Sha256.digest key else key in
  k ++ repeat x00 (block_size - length k).

Definition digest (key msg : list byte) : list byte :=
  let k := block_key key in
  Sha256.digest (xor_with 0x5c k ++ Sha256.digest (xor_with 0x36 k ++ msg)).

End Hmac.

(** ** base64.b64encode *)

Module Base64.

Definition alphabet : list byte :=
  list_byte_of_string
    "ABCDEFGHIJKLMNOPQRSTUVWXYZabcdefghijklmnopqrstuvwxyz0123456789+/".

Definition pad_char : byte := "=".

Definition sextet (z : Z) : byte := nth (Z.to_nat (z mod 64)) alphabet pad_char.

Fixpoint b64encode (bs : list byte) : list byte :=
  match bs with
  | [] => []
  | [a] =>
      let n := Sha256.byte_val a * 65536 in
      [sextet (Z.shiftr n 18); sextet (Z.shiftr n 12); pad_char; pad_char]
  | [a; b] =>
      let n := Sha256.byte_val a * 65536 + Sha256.byte_val b * 256 in
      [sextet (Z.shiftr n 18); sextet (Z.shiftr n 12); sextet (Z.shiftr n 6);
       pad_char]
  | a :: b :: c :: rest =>
      let n := Sha256.byte_val a * 65536 + Sha256.byte_val b * 256
               + Sha256.byte_val c in
      sextet (Z.shiftr n 18) :: sextet (Z.shiftr n 12) :: sextet (Z.shiftr n 6)
        :: sextet n :: b64encode rest
  end.

End Base64.

Definition hex_of (bs : list byte) : string :=
  let digit (z : Z) : ascii :=
    nth (Z.to_nat z) (list_ascii_of_string "0123456789abcdef") "0"%char in
  string_of_list_ascii
    (flat_map (fun b => [digit (Sha256.byte_val b / 16);
                         digit (Sha256.byte_val b mod 16)]) bs).

(** ** Python values, truthiness and exceptions *)

(** What [json.loads] can return. *)
#[warnings="-register-all"]
Inductive value : Type :=
| VNone
| VBool (b : bool)
| VInt (n : Z)
| VFloat (f : spec_float)
| VStr (s : string)
| VList (items : list value)
| VDict (entries : list (string * value)).

(** [bool(v)]: [None], [False], zero, and empty containers are falsy. *)
Definition truthy (v : value) : bool :=
  match v with
  | VNone => false
  | VBool b => b
  | VInt n => negb (n =? 0)
  | VFloat (S754_zero _) => false
  | VFloat _ => true
  | VStr s => negb (String.eqb s "")
  | VList [] => false
  | VList (_ :: _) => true
  | VDict [] => false
  | VDict (_ :: _) => true
  end.

(** [v == s] for a string literal [s]. *)
Definition eq_str (v : value) (s : string) : bool :=
  match v with
  | VStr t => String.eqb t s
  | _ => false
  end.

Inductive exn : Type :=
| HTTPException (status_code : Z) (detail : string)
| JSONDecodeError
| UnicodeDecodeError
| AttributeError
| TypeError
| CollaboratorError.

Inductive outcome (A : Type) : Type :=
| Ok (a : A)
| Raise (e : exn).
Arguments Ok {A} a.
Arguments Raise {A} e.

Fixpoint lookup (key : string) (entries : list (string * value)) : option value :=
  match entries with
  | [] => None
  | (k, v) :: rest => if String.eqb k key then Some v else lookup key rest
  end.

(** [v.get(key, default)]: only a [dict] has [get]. *)
Definition py_get (v : value) (key : string) (default : value) : outcome value :=
  match v with
  | VDict entries =>
      Ok (match lookup key entries with Some x => x | None => default end)
  | _ => Raise AttributeError
  end.

(** [iter(v)] as used by [for x in v]: a list yields its items, a dict its
    keys, a str its characters; anything else is not iterable. (The items of
    a str are given per byte; each is a non-empty str either way.) *)
Definition py_iter (v : value) : outcome (list value) :=
  match v with
  | VList items => Ok items
  | VDict entries => Ok (map (fun kv => VStr (fst kv)) entries)
  | VStr s => Ok (map (fun c => VStr (String c EmptyString)) (list_ascii_of_string s))
  | _ => Raise TypeError
  end.

(** ** Signature verification (line.py, lines 22-42) *)

Definition is_ascii (s : string) : bool :=
  forallb (fun b => Sha256.byte_val b <? 128) (list_byte_of_string s).

(** [hmac.compare_digest] on two [str]: ASCII-only arguments, else TypeError. *)
Definition compare_digest (a b : string) : outcome bool :=
  if is_ascii a && is_ascii b then Ok (String.eqb a b) else Raise TypeError.

(** [base64.b64encode(hmac.new(secret.encode('utf-8'), body, sha256).digest())
    .decode('utf-8')] *)
Definition hmac_b64 (body : list byte) (secret : string) : string :=
  string_of_list_byte
    (Base64.b64encode (Hmac.digest (list_byte_of_string secret) body)).

(** [not signature] for an [Optional[str]]. *)
Definition present (signature : option string) : bool :=
  match signature with
  | Some s => negb (String.eqb s "")
  | None => false
  end.

Definition system_prompt : string :=
  "あなたは親切なAIアシスタントです。ユーザーの質問に簡潔かつ丁寧に答えてください。".

Definition no_content_text : string :=
  "申し訳ございません。応答を生成できませんでした。".

Definition apology_text : string :=
  "申し訳ございません。エラーが発生しました。しばらくしてからもう一度お試しください。".

(** ** Collaborators and the world they act on *)

(** A call that leaves the process: the conversation store
    ([app.database]), the completion service ([app.services.openai_service])
    and the HTTPS request of [LineService]. *)
Inductive call : Type :=
| GetLineConversation (user_id : value) (limit : nat)
| SaveLineMessage (user_id : value) (role : string) (text : value)
| CompleteOnce (messages : list value) (temperature : Q) (max_tokens : Z)
| HttpPost (url : string) (headers : list (string * string)) (json : value)
           (timeout : Z).

Record turn : Type := Turn { turn_user : value; turn_role : string; turn_text : value }.

(** The conversation store, oldest turn first, and the calls made so far,
    oldest first. *)
Record world : Type := World { store : list turn; calls : list call }.

Definition M (A : Type) : Type := world -> outcome A * world.

Definition ret {A : Type} (a : A) : M A := fun w => (Ok a, w).

Definition raise {A : Type} (e : exn) : M A := fun w => (Raise e, w).

Definition lift {A : Type} (o : outcome A) : M A := fun w => (o, w).

Definition bind {A B : Type} (m : M A) (k : A -> M B) : M B :=
  fun w =>
    match m w with
    | (Ok a, w') => k a w'
    | (Raise e, w') => (Raise e, w')
    end.

(** [try: body  except ...: handler]; the handler starts from the world the
    body left behind. *)
Definition try_except {A : Type} (body : M A) (handler : exn -> M A) : M A :=
  fun w =>
    match body w with
    | (Ok a, w') => (Ok a, w')
    | (Raise e, w') => handler e w'
    end.

Declare Scope py_scope.
Delimit Scope py_scope with py.
Notation "x <- m ;; k" := (bind m (fun x => k))
  (at level 100, m at next level, right associativity) : py_scope.
Notation "m ;; k" := (bind m (fun _ => k))
  (at level 100, right associativity) : py_scope.
Local Open Scope py_scope.

(** [for x in items: await body(x)] *)
Fixpoint for_each {A : Type} (body : A -> M unit) (items : list A) : M unit :=
  match items with
  | [] => ret tt
  | x :: rest => body x ;; for_each body rest
  end.

(** Structural equality of values, the key comparison of the store. *)
Definition spec_float_eqb (x y : spec_float) : bool :=
  match x, y with
  | S754_zero s, S754_zero t => Bool.eqb s t
  | S754_infinity s, S754_infinity t => Bool.eqb s t
  | S754_nan, S754_nan => true
  | S754_finite s m e, S754_finite t n f =>
      Bool.eqb s t && Pos.eqb m n && (e =? f)
  | _, _ => false
  end.

Fixpoint value_eqb (a b : value) : bool :=
  match a, b with
  | VNone, VNone => true
  | VBool x, VBool y => Bool.eqb x y
  | VInt x, VInt y => x =? y
  | VFloat x, VFloat y => spec_float_eqb x y
  | VStr x, VStr y => String.eqb x y
  | VList xs, VList ys =>
      (fix items (xs ys : list value) : bool :=
         match xs, ys with
         | [], [] => true
         | x :: xs', y :: ys' => value_eqb x y && items xs' ys'
         | _, _ => false
         end) xs ys
  | VDict xs, VDict ys =>
      (fix entries (xs ys : list (string * value)) : bool :=
         match xs, ys with
         | [], [] => true
         | (j, x) :: xs', (k, y) :: ys' =>
             String.eqb j k && value_eqb x y && entries xs' ys'
         | _, _ => false
         end) xs ys
  | _, _ => false
  end.

Definition turn_message (t : turn) : value :=
  VDict [("role", VStr (turn_role t)); ("content", turn_text t)]%string.

(** Modelled from the spec: [app.database.get_line_conversation] is not
    among the sources. The store is a key-ordered append/read store;
    reading returns the most recent [limit] turns of [user_id], oldest
    first, as {role, content} entries. *)
Definition recent_turns (st : list turn) (user_id : value) (limit : nat)
  : list value :=
  let own := filter (fun t => value_eqb (turn_user t) user_id) st in
  map turn_message (skipn (length own - limit) own).

(** Modelled from the spec: [app.database.save_line_message] is not among
    the sources. Appending adds one turn at the recent end. *)
Definition append_turn (st : list turn) (user_id : value) (role : string)
  (text : value) : list turn :=
  st ++ [Turn user_id role text].

(** [LineService.__init__] (line_service.py, lines 12-14) *)
Record LineService : Type :=
  { channel_access_token : string; api_base : string }.

Definition LineService_init (token : string) : LineService :=
  {| channel_access_token := token; api_base := "https://api.line.me/v2/bot" |}.

(** [LineService._headers] (line_service.py, lines 16-21) *)
Definition _headers (self : LineService) : list (string * string) :=
  [ ("Authorization", "Bearer " ++ channel_access_token self);
    ("Content-Type", "application/json") ]%string.

Definition reply_url (self : LineService) : string :=
  (api_base self ++ "/message/reply")%string.

Definition reply_payload (reply_token text : value) : value :=
  VDict [ ("replyToken", reply_token);
          ("messages", VList [VDict [("type", VStr "text"); ("text", text)]]) ]%string.

(** FastAPI's rendering of what the route function returns or raises. *)
Record response : Type := Response { status : Z; content : value }.

Definition http_response (r : outcome value) : response :=
  match r with
  | Ok v => Response 200 v
  | Raise (HTTPException status_code detail) =>
      Response status_code (VDict [("detail", VStr detail)]%string)
  | Raise _ => Response 500 (VStr "Internal Server Error")
  end.

Definition status_ok : value := VDict [("status", VStr "ok")]%string.

Section Webhook.

(** Module globals, read from the process environment at import. *)
Variable LINE_CHANNEL_SECRET : string.
Variable LINE_CHANNEL_ACCESS_TOKEN : string.

(** [json.loads]: a value, [JSONDecodeError], or another exception. *)
Variable json_loads : list byte -> outcome value.

(** The collaborators' behaviour: what the call [c], issued after the calls
    [history], returns, or [None] when it raises. *)
Variable env : list call -> call -> option value.

Definition invoke (c : call) : M value :=
  fun w =>
    let w' := World (store w) (calls w ++ [c]) in
    match env (calls w) c with
    | Some v => (Ok v, w')
    | None => (Raise CollaboratorError, w')
    end.

(** Modelled from the spec: [app.database.get_line_conversation] is not
    among the sources. The call may raise; otherwise it returns the recent
    turns and leaves the store as it is. *)
Definition get_line_conversation (user_id : value) (limit : nat)
  : M (list value) :=
  invoke (GetLineConversation user_id limit) ;;
  fun w => (Ok (recent_turns (store w) user_id limit), w).

(** Modelled from the spec: [app.database.save_line_message] is not among
    the sources. The call may raise, and then stores nothing; otherwise it
    appends the turn. *)
Definition save_line_message (user_id : value) (role : string) (text : value)
  : M unit :=
  invoke (SaveLineMessage user_id role text) ;;
  fun w => (Ok tt, World (append_turn (store w) user_id role text) (calls w)).

(** Modelled from the spec: [app.services.openai_service.complete_once] is
    not among the sources. It is a black box from the message list to a
    result, and may raise. *)
Definition complete_once (messages : list value) (temperature : Q)
  (max_tokens : Z) : M value :=
  invoke (CompleteOnce messages temperature max_tokens).

(** [LineService.reply_message] (line_service.py, lines 23-41): the POST,
    [raise_for_status] and [response.json()] are one collaborator call. *)
Definition reply_message (self : LineService) (reply_token text : value)
  : M value :=
  let url := reply_url self in
  let payload := reply_payload reply_token text in
  invoke (HttpPost url (_headers self) payload 30).

(** line.py, lines 22-42 *)
Definition verify_signature (body : list byte) (signature : option string)
  : outcome bool :=
  if String.eqb LINE_CHANNEL_SECRET "" || negb (present signature) then Ok true
  else
    let expected_signature := hmac_b64 body LINE_CHANNEL_SECRET in
    compare_digest (match signature with Some s => s | None => EmptyString end)
                   expected_signature.

(** line.py, lines 133-139 *)
Definition get_user_conversation (user_id : value) : M (list value) :=
  get_line_conversation user_id 10.

(** line.py, lines 142-150 *)
Definition save_user_message (user_id user_message ai_response : value)
  : M unit :=
  save_line_message user_id "user" user_message ;;
  save_line_message user_id "assistant" ai_response.

(** line.py, lines 93-130: the [try] block and its handlers. *)
Definition respond_to_message (user_id reply_token user_message : value)
  : M unit :=
  try_except
    (let line_service := LineService_init LINE_CHANNEL_ACCESS_TOKEN in
     conversation_history <- get_user_conversation user_id ;;
     let messages :=
       [VDict [("role", VStr "system"); ("content", VStr system_prompt)]%string]
       ++ conversation_history
       ++ [VDict [("role", VStr "user"); ("content", user_message)]%string] in
     result <- complete_once messages (7 # 10)%Q 500 ;;
     ai_response <- lift (py_get result "content" (VStr no_content_text)) ;;
     save_user_message user_id user_message ai_response ;;
     reply_message line_service reply_token ai_response ;;
     ret tt)
    (fun _ =>
       try_except
         (let line_service := LineService_init LINE_CHANNEL_ACCESS_TOKEN in
          reply_message line_service reply_token (VStr apology_text) ;;
          ret tt)
         (fun _ => ret tt)).

(** line.py, lines 72-130 *)
Definition handle_line_event (event : value) : M unit :=
  event_type <- lift (py_get event "type" VNone) ;;
  if negb (eq_str event_type "message") then ret tt else
  message <- lift (py_get event "message" (VDict [])) ;;
  message_type <- lift (py_get message "type" VNone) ;;
  if negb (eq_str message_type "text") then ret tt else
  source <- lift (py_get event "source" (VDict [])) ;;
  user_id <- lift (py_get source "userId" VNone) ;;
  reply_token <- lift (py_get event "replyToken" VNone) ;;
  message' <- lift (py_get event "message" (VDict [])) ;;
  user_message <- lift (py_get message' "text" (VStr "")) ;;
  if negb (truthy user_id) || negb (truthy reply_token)
     || negb (truthy user_message)
  then ret tt
  else respond_to_message user_id reply_token user_message.

(** line.py, lines 60-69: what follows the signature check. *)
Definition parse_and_dispatch (body : list byte) : M value :=
  data <- try_except (lift (json_loads body))
            (fun e =>
               match e with
               | JSONDecodeError => raise (HTTPException 400 "Invalid JSON")
               | _ => raise e
               end) ;;
  events <- lift (py_get data "events" (VList [])) ;;
  items <- lift (py_iter events) ;;
  for_each handle_line_event items ;;
  ret status_ok.

(** line.py, lines 45-69 *)
Definition line_webhook (body : list byte) (x_line_signature : option string)
  : M value :=
  (if present x_line_signature then
     valid <- lift (verify_signature body x_line_signature) ;;
     if negb valid then raise (HTTPException 400 "Invalid signature")
     else ret tt
   else ret tt) ;;
  parse_and_dispatch body.

(** POST /api/line/webhook as the platform sees it. *)
Definition post_webhook (body : list byte) (x_line_signature : option string)
  (w : world) : response * world :=
  let (r, w') := line_webhook body x_line_signature w in
  (http_response r, w').

End Webhook.

(** ** Vocabulary of the properties *)

(** Reading a member along a JSON path: [None] when the holder is not an
    object or has no such member. *)
Definition field (v : value) (key : string) : value :=
  match v with
  | VDict entries =>
      match lookup key entries with Some x => x | None => VNone end
  | _ => VNone
  end.

Definition user_id_of (event : value) : value := field (field event "source") "userId".
Definition reply_token_of (event : value) : value := field event "replyToken".
Definition text_of (event : value) : value := field (field event "message") "text".

(** An actionable event: a text message with non-empty userId, replyToken
    and text. *)
Definition actionable (event : value) : bool :=
  eq_str (field event "type") "message"
  && eq_str (field (field event "message") "type") "text"
  && truthy (user_id_of event)
  && truthy (reply_token_of event)
  && truthy (text_of event).

Definition is_dict (v : value) : bool :=
  match v with
  | VDict _ => true
  | _ => false
  end.

(** The member [key] of an object is itself an object, or is missing. *)
Definition dict_or_absent (v : value) (key : string) : bool :=
  match v with
  | VDict entries =>
      match lookup key entries with
      | Some x => is_dict x
      | None => true
      end
  | _ => false
  end.

(** The shape the handler relies on: the event is an object; when its type
    is "message" its [message] member is an object (or missing); when that
    message has type "text" its [source] member is an object (or missing). *)
Definition well_shaped_event (event : value) : bool :=
  is_dict event
  && (negb (eq_str (field event "type") "message")
      || dict_or_absent event "message"
         && (negb (eq_str (field (field event "message") "type") "text")
             || dict_or_absent event "source")).

(** The shape the route relies on: the body is an object whose [events]
    member, [[]] by default, can be iterated and yields well-shaped events. *)
Definition well_shaped_envelope (data : value) : bool :=
  match data with
  | VDict entries =>
      match py_iter (match lookup "events" entries with
                     | Some x => x
                     | None => VList []
                     end) with
      | Ok items => forallb well_shaped_event items
      | Raise _ => false
      end
  | _ => false
  end.

(** The request of [LineService(token).reply_message(reply_token, text)]. *)
Definition reply_call (token : string) (reply_token text : value) : call :=
  let self := LineService_init token in
  HttpPost (reply_url self) (_headers self) (reply_payload reply_token text) 30.

Definition is_reply_call (c : call) : bool :=
  match c with
  | HttpPost url _ _ _ => String.eqb url "https://api.line.me/v2/bot/message/reply"
  | _ => false
  end.



(** The completion request built for [user_id] saying [user_message]. *)
Definition completion_request (st : list turn) (user_id user_message : value)
  : list value :=
  [VDict [("role", VStr "system"); ("content", VStr system_prompt)]%string]
  ++ recent_turns st user_id 10
  ++ [VDict [("role", VStr "user"); ("content", user_message)]%string].

(** The gate of the route lets the request through. *)
Definition passes_gate (secret : string) (body : list byte)
  (signature : option string) : Prop :=
  present signature = true -> verify_signature secret body signature = Ok true.

Definition read_call (user_id : value) : call := GetLineConversation user_id 10.

Definition completion_call (st : list turn) (user_id user_message : value) : call :=
  CompleteOnce (completion_request st user_id user_message) (7 # 10)%Q 500.

Definition apology_call (token : string) (reply_token : value) : call :=
  reply_call token reply_token (VStr apology_text).

(** ** The dispatch path, case by case *)

Section Dispatch.

Variable token : string.
Variable env : list call -> call -> option value.
Variables user_id reply_token user_message : value.
Variable w : world.

Let h := calls w.
Let st := store w.
Let get := GetLineConversation user_id 10.
Let cmp := CompleteOnce (completion_request st user_id user_message) (7 # 10)%Q 500.
Let save_user := SaveLineMessage user_id "user" user_message.
Let save_assistant := SaveLineMessage user_id "assistant".
Let sorry := reply_call token reply_token (VStr apology_text).
Let user_turn := Turn user_id "user" user_message.

(** The world one dispatch leaves behind, read off the collaborators'
    answers in the order the calls are made. *)
Definition dispatch_world : world :=
  match env h get with
  | None => World st (h ++ [get; sorry])
  | Some _ =>
  match env (h ++ [get]) cmp with
  | None => World st (h ++ [get; cmp; sorry])
  | Some result =>
  match py_get result "content" (VStr no_content_text) with
  | Raise _ => World st (h ++ [get; cmp; sorry])
  | Ok ai_response =>
  match env (h ++ [get; cmp]) save_user with
  | None => World st (h ++ [get; cmp; save_user; sorry])
  | Some _ =>
  match env (h ++ [get; cmp; save_user]) (save_assistant ai_response) with
  | None =>
      World (st ++ [user_turn])
            (h ++ [get; cmp; save_user; save_assistant ai_response; sorry])
  | Some _ =>
  let reply := reply_call token reply_token ai_response in
  let saved := st ++ [user_turn; Turn user_id "assistant" ai_response] in
  match env (h ++ [get; cmp; save_user; save_assistant ai_response]) reply with
  | Some _ =>
      World saved (h ++ [get; cmp; save_user; save_assistant ai_response; reply])
  | None =>
      World saved
            (h ++ [get; cmp; save_user; save_assistant ai_response; reply; sorry])
  end end end end end end.

End Dispatch.

(** ** Sample requests and collaborators *)

(** JSON text written with ['] for the double quote. *)
Fixpoint json_text (s : string) : string :=
  match s with
  | EmptyString => EmptyString
  | String c rest =>
      String (if Ascii.eqb c "'" then "034"%char else c) (json_text rest)
  end.

Definition sample_event : value :=
  VDict [ ("type", VStr "message");
          ("replyToken", VStr "r1");
          ("source", VDict [("type", VStr "user"); ("userId", VStr "U1")]);
          ("message", VDict [("type", VStr "text"); ("text", VStr "hello")]) ]%string.

Definition sample_body : list byte :=
  list_byte_of_string
    (json_text ("{'events':[{'type':'message','replyToken':'r1',"
                ++ "'source':{'type':'user','userId':'U1'},"
                ++ "'message':{'type':'text','text':'hello'}}]}")).

(** An event without a user: its [source] is [null]. *)
Definition sourceless_event : value :=
  VDict [ ("type", VStr "message");
          ("replyToken", VStr "r1");
          ("source", VNone);
          ("message", VDict [("type", VStr "text"); ("text", VStr "hello")]) ]%string.

Definition array_body : list byte := list_byte_of_string "[]".

(** [json.loads] on the sample bodies. *)
Definition sample_loads (body : list byte) : outcome value :=
  if String.eqb (string_of_list_byte body) (string_of_list_byte sample_body)
  then Ok (VDict [("events", VList [sample_event])]%string)
  else if String.eqb (string_of_list_byte body) "[]"
  then Ok (VList [])
  else Raise JSONDecodeError.

Definition generated : value := VDict [("content", VStr "hi there")]%string.

(** Every collaborator answers. *)
Definition all_up (history : list call) (c : call) : option value :=
  match c with
  | CompleteOnce _ _ _ => Some generated
  | HttpPost _ _ _ _ => Some (VDict [])
  | _ => Some VNone
  end.

(** The LINE API refuses every request. *)
Definition transport_down (history : list call) (c : call) : option value :=
  match c with
  | HttpPost _ _ _ _ => None
  | _ => all_up history c
  end.


(** The store accepts user turns and refuses assistant turns. *)
Definition assistant_save_fails (history : list call) (c : call) : option value :=
  match c with
  | SaveLineMessage _ role _ =>
      if String.eqb role "assistant" then None else Some VNone
  | _ => all_up history c
  end.

(** A second user, whose text the completion service chokes on. *)
Definition boom_event : value :=
  VDict [ ("type", VStr "message");
          ("replyToken", VStr "r2");
          ("source", VDict [("type", VStr "user"); ("userId", VStr "U2")]);
          ("message", VDict [("type", VStr "text"); ("text", VStr "boom")]) ]%string.

Definition completion_chokes (history : list call) (c : call) : option value :=
  match c with
  | CompleteOnce messages _ _ =>
      if existsb (fun m => eq_str (field m "content") "boom") messages
      then None else Some generated
  | _ => all_up history c
  end.

Definition fresh : world := World [] [].

(** A text message whose text is empty. *)
Definition empty_text_event : value :=
  VDict [ ("type", VStr "message");
          ("replyToken", VStr "r1");
          ("source", VDict [("userId", VStr "U1")]);
          ("message", VDict [("type", VStr "text"); ("text", VStr "")]) ]%string.

(** Twenty stored turns u1 a1 .. u10 a10 of one user, between turns of
    another: the window is u6 a6 .. u10 a10. *)
Definition numbered (n : nat) : list turn :=
  flat_map (fun i => [Turn (VStr "U1") "user" (VInt (Z.of_nat i));
                      Turn (VStr "U2") "user" (VStr "other");
                      Turn (VStr "U1") "assistant" (VInt (- Z.of_nat i))])
           (seq 1 n).

(** ** Health check (line.py, lines 153-162) *)

Section Health.

Variable LINE_CHANNEL_SECRET : string.
Variable LINE_CHANNEL_ACCESS_TOKEN : string.

(** [bool(s)] of a [str]. *)
Definition str_bool (s : string) : bool := negb (String.eqb s "").

Definition line_health : M value :=
  ret (VDict [ ("status", VStr "ok");
               ("channel_secret_configured", VBool (str_bool LINE_CHANNEL_SECRET));
               ("access_token_configured",
                VBool (str_bool LINE_CHANNEL_ACCESS_TOKEN)) ]%string).

End Health.

(** The platform's verification ping: an envelope without events. *)
Definition ping_body : list byte :=
  list_byte_of_string (json_text "{'destination':'Uxxx','events':[]}").

Definition ping_loads (body : list byte) : outcome value :=
  if String.eqb (string_of_list_byte body) (string_of_list_byte ping_body)
  then Ok (VDict [("destination", VStr "Uxxx"); ("events", VList [])]%string)
  else Raise JSONDecodeError.

(** A follow event, and a sticker message: neither is a text message. *)
Definition follow_event : value :=
  VDict [ ("type", VStr "follow");
          ("replyToken", VStr "r0");
          ("source", VDict [("type", VStr "user"); ("userId", VStr "U1")]) ]%string.

Definition sticker_event : value :=
  VDict [ ("type", VStr "message");
          ("replyToken", VStr "r3");
          ("source", VDict [("type", VStr "user"); ("userId", VStr "U1")]);
          ("message", VDict [("type", VStr "sticker"); ("stickerId", VStr "1")]) ]%string.

(** The completion service answers with something that is not a dict. *)
Definition completion_returns_none (history : list call) (c : call) : option value :=
  match c with
  | CompleteOnce _ _ _ => Some VNone
  | _ => all_up history c
  end.

(** The completion service answers with a dict that has no content. *)
Definition completion_without_content (history : list call) (c : call)
  : option value :=
  match c with
  | CompleteOnce _ _ _ => Some (VDict [("finish_reason", VStr "length")]%string)
  | _ => all_up history c
  end.

(** The text taken from a completion result (line.py, line 112): its
    [content] member, the fixed text only when the member is missing. *)
Definition answer_text (entries : list (string * value)) : value :=
  match lookup "content" entries with
  | Some x => x
  | None => VStr no_content_text
  end.

(** An envelope of three events, the second without a usable source. *)
Definition mixed_events : list value := [sample_event; sourceless_event; boom_event].

Definition mixed_body : list byte :=
  list_byte_of_string
    (json_text ("{'events':[{'type':'message','replyToken':'r1',"
                ++ "'source':{'type':'user','userId':'U1'},"
                ++ "'message':{'type':'text','text':'hello'}},"
                ++ "{'type':'message','replyToken':'r1','source':null,"
                ++ "'message':{'type':'text','text':'hello'}},"
                ++ "{'type':'message','replyToken':'r2',"
                ++ "'source':{'type':'user','userId':'U2'},"
                ++ "'message':{'type':'text','text':'boom'}}]}")).

Definition mixed_loads (body : list byte) : outcome value :=
  if String.eqb (string_of_list_byte body) (string_of_list_byte mixed_body)
  then Ok (VDict [("events", VList mixed_events)]%string)
  else Raise JSONDecodeError.

(** The turns one event may add: under its userId, as user or assistant. *)
Definition own_turn (user_id : value) (t : turn) : Prop :=
  turn_user t = user_id /\ (turn_role t = "user"%string \/ turn_role t = "assistant"%string).

(** A call that concerns [event] alone: its user's history, a completion
    with the fixed sampling parameters, or a reply on its replyToken. *)
Definition call_of_event (token : string) (event : value) (c : call) : Prop :=
  match c with
  | GetLineConversation user_id limit => user_id = user_id_of event /\ limit = 10%nat
  | SaveLineMessage user_id _ _ => user_id = user_id_of event
  | CompleteOnce _ temperature max_tokens =>
      temperature = (7 # 10)%Q /\ max_tokens = 500
  | HttpPost _ _ _ _ => exists text, c = reply_call token (reply_token_of event) text
  end.

(** ** The other requests of LineService (line_service.py, lines 43-87 and
    100-135); [get_profile], a GET, has no counterpart among the calls. *)

Definition push_url (self : LineService) : string :=
  (api_base self ++ "/message/push")%string.

Definition push_payload (user_id text : value) : value :=
  VDict [ ("to", user_id);
          ("messages", VList [VDict [("type", VStr "text"); ("text", text)]]) ]%string.

Definition push_flex_payload (user_id alt_text flex_content : value) : value :=
  VDict [ ("to", user_id);
          ("messages",
           VList [VDict [("type", VStr "flex"); ("altText", alt_text);
                         ("contents", flex_content)]]) ]%string.

Definition rich_menu_button_payload (reply_token text button_text liff_url : value)
  : value :=
  VDict [ ("replyToken", reply_token);
          ("messages",
           VList [VDict [ ("type", VStr "template");
                          ("altText", text);
                          ("template",
                           VDict [ ("type", VStr "buttons");
                                   ("text", text);
                                   ("actions",
                                    VList [VDict [ ("type", VStr "uri");
                                                   ("label", button_text);
                                                   ("uri", liff_url) ]]) ]) ]]) ]%string.

Section Client.

Variable env : list call -> call -> option value.

(** line_service.py, lines 43-61 *)
Definition push_message (self : LineService) (user_id text : value) : M value :=
  let url := push_url self in
  let payload := push_payload user_id text in
  invoke env (HttpPost url (_headers self) payload 30).

(** line_service.py, lines 63-87 *)
Definition push_flex_message (self : LineService)
  (user_id alt_text flex_content : value) : M value :=
  let url := push_url self in
  let payload := push_flex_payload user_id alt_text flex_content in
  invoke env (HttpPost url (_headers self) payload 30).

(** line_service.py, lines 100-135 *)
Definition send_rich_menu_button (self : LineService)
  (reply_token text button_text liff_url : value) : M value :=
  let url := reply_url self in
  let payload := rich_menu_button_payload reply_token text button_text liff_url in
  invoke env (HttpPost url (_headers self) payload 30).

End Client.

(** ** The rich menu setup script (scripts/setup_rich_menu.py) *)

Module RichMenu.

Inductive error : Type :=
| RequestException
| JSONDecodeError
| KeyError
| TypeError
| AttributeError.

(** [requests.get(url, headers=...)] and [requests.post(url, headers=...,
    json=...)]. *)
Inductive request : Type :=
| Get (url : string) (headers : list (string * string))
| Post (url : string) (headers : list (string * string)) (json : option value).

(** A response: its status code, what [response.json()] returns ([None]
    when the body is not JSON and the call raises), and [response.text]. *)
Record reply : Type :=
  Reply { status_code : Z; json_body : option value; text : string }.

(** What the script prints, one constructor per [print] (consecutive prints
    of one branch are one constructor), with the interpolated values. The
    text itself and its encoding on the console are not modelled. *)
Inductive message : Type :=
| MissingToken                                  (* line 17 *)
| MissingLiffUrl                                (* line 21 *)
| CreateSucceeded (rich_menu_id : value)        (* line 76 *)
| CreateFailed (status : Z) (body : string)     (* lines 79-80 *)
| UploadSkipped                                 (* lines 88-89 *)
| DefaultSet                                    (* line 99 *)
| DefaultFailed (status : Z) (body : string)    (* lines 102-103 *)
| ListHeader (menus : value)                    (* line 115 *)
| MenuLine (name rich_menu_id : value)          (* line 117 *)
| ListFailed (status : Z)                       (* line 120 *)
| Banner                                        (* line 125 *)
| Creating                                      (* line 131 *)
| SetupFailed                                   (* line 135 *)
| SettingDefault                                (* line 139 *)
| SetupDone                                     (* line 142 *)
| Guidance (liff_app_url : string) (rich_menu_id : value). (* lines 143-151 *)

(** The requests sent and the messages printed so far, oldest first. *)
Record state : Type := State { sent : list request; printed : list message }.

Inductive result (A : Type) : Type :=
| Done (a : A)
| Raised (e : error).
Arguments Done {A} a.
Arguments Raised {A} e.

Definition run (A : Type) : Type := state -> result A * state.

Definition ret {A : Type} (a : A) : run A := fun s => (Done a, s).

Definition fail {A : Type} (e : error) : run A := fun s => (Raised e, s).

Definition bind {A B : Type} (m : run A) (k : A -> run B) : run B :=
  fun s =>
    match m s with
    | (Done a, s') => k a s'
    | (Raised e, s') => (Raised e, s')
    end.

Definition print (m : message) : run unit :=
  fun s => (Done tt, State (sent s) (printed s ++ [m])).

Declare Scope script_scope.
Delimit Scope script_scope with script.
Notation "x <- m ;; k" := (bind m (fun x => k))
  (at level 100, m at next level, right associativity) : script_scope.
Notation "m ;; k" := (bind m (fun _ => k))
  (at level 100, right associativity) : script_scope.
Local Open Scope script_scope.

(** [v[key]] for a str key: a dict has the key or raises KeyError; nothing
    else can be indexed by a str. *)
Definition subscript (v : value) (key : string) : run value :=
  match v with
  | VDict entries =>
      match lookup key entries with
      | Some x => ret x
      | None => fail KeyError
      end
  | _ => fail TypeError
  end.

(** [v.get(key, default)] *)
Definition get_member (v : value) (key : string) (default : value) : run value :=
  match v with
  | VDict entries =>
      ret (match lookup key entries with Some x => x | None => default end)
  | _ => fail AttributeError
  end.

(** [len(v)] is defined for str, list and dict. *)
Definition has_len (v : value) : run unit :=
  match v with
  | VStr _ | VList _ | VDict _ => ret tt
  | _ => fail TypeError
  end.

(** [iter(v)], as [py_iter]. *)
Definition iterate (v : value) : run (list value) :=
  match py_iter v with
  | Ok items => ret items
  | Raise _ => fail TypeError
  end.

Fixpoint for_each {A : Type} (body : A -> run unit) (items : list A) : run unit :=
  match items with
  | [] => ret tt
  | x :: rest => body x ;; for_each body rest
  end.

(** [response.json()] *)
Definition response_json (r : reply) : run value :=
  match json_body r with
  | Some v => ret v
  | None => fail JSONDecodeError
  end.

(** The body of the loop of lines 116-117: the f-string reads the name,
    then the id. *)
Definition print_menu_line (menu : value) : run unit :=
  name <- subscript menu "name" ;;
  rich_menu_id <- subscript menu "richMenuId" ;;
  print (MenuLine name rich_menu_id).

Definition API_BASE : string := "https://api.line.me/v2/bot".

Section Script.

(** Module globals, after the two guards of lines 16-22. *)
Variable CHANNEL_ACCESS_TOKEN : string.
Variable LIFF_APP_URL : string.

(** [str(v)], as an f-string interpolates a value. *)
Variable format_value : value -> string.

(** The LINE API: the response to a request sent after the requests
    [history], or [None] when [requests] raises. *)
Variable server : list request -> request -> option reply.

Definition HEADERS : list (string * string) :=
  [ ("Authorization", "Bearer " ++ CHANNEL_ACCESS_TOKEN);
    ("Content-Type", "application/json") ]%string.

Definition send (r : request) : run reply :=
  fun s =>
    let s' := State (sent s ++ [r]) (printed s) in
    match server (sent s) r with
    | Some answer => (Done answer, s')
    | None => (Raised RequestException, s')
    end.

Definition rich_menu_data : value :=
  VDict [ ("size", VDict [("width", VInt 2500); ("height", VInt 843)]);
          ("selected", VBool true);
          ("name", VStr "EXIT GPT Menu");
          ("chatBarText", VStr "メニュー");
          ("areas",
           VList [ VDict [ ("bounds", VDict [ ("x", VInt 0); ("y", VInt 0);
                                              ("width", VInt 1250);
                                              ("height", VInt 843) ]);
                           ("action", VDict [ ("type", VStr "uri");
                                              ("uri", VStr LIFF_APP_URL) ]) ];
                   VDict [ ("bounds", VDict [ ("x", VInt 1250); ("y", VInt 0);
                                              ("width", VInt 1250);
                                              ("height", VInt 843) ]);
                           ("action", VDict [ ("type", VStr "message");
                                              ("text", VStr "ヘルプ") ]) ] ]) ]%string.

(** setup_rich_menu.py, lines 31-81; [None] is [VNone]. *)
Definition create_rich_menu : run value :=
  let url := (API_BASE ++ "/richmenu")%string in
  response <- send (Post url HEADERS (Some rich_menu_data)) ;;
  if status_code response =? 200 then
    body <- response_json response ;;
    rich_menu_id <- subscript body "richMenuId" ;;
    print (CreateSucceeded rich_menu_id) ;;
    ret rich_menu_id
  else
    print (CreateFailed (status_code response) (text response)) ;;
    ret VNone.

(** setup_rich_menu.py, lines 84-89 *)
Definition upload_rich_menu_image (rich_menu_id : value) : run unit :=
  print UploadSkipped.

(** setup_rich_menu.py, lines 92-104 *)
Definition set_default_rich_menu (rich_menu_id : value) : run bool :=
  let url := (API_BASE ++ "/user/all/richmenu/" ++ format_value rich_menu_id)%string in
  response <- send (Post url HEADERS None) ;;
  if status_code response =? 200 then
    print DefaultSet ;;
    ret true
  else
    print (DefaultFailed (status_code response) (text response)) ;;
    ret false.

(** setup_rich_menu.py, lines 107-121 *)
Definition list_rich_menus : run value :=
  let url := (API_BASE ++ "/richmenu/list")%string in
  response <- send (Get url HEADERS) ;;
  if status_code response =? 200 then
    body <- response_json response ;;
    menus <- get_member body "richmenus" (VList []) ;;
    has_len menus ;;
    print (ListHeader menus) ;;
    items <- iterate menus ;;
    for_each print_menu_line items ;;
    ret menus
  else
    print (ListFailed (status_code response)) ;;
    ret (VList []).

(** setup_rich_menu.py, lines 124-151 *)
Definition main : run unit :=
  print Banner ;;
  existing_menus <- list_rich_menus ;;
  print Creating ;;
  rich_menu_id <- create_rich_menu ;;
  if negb (truthy rich_menu_id) then
    print SetupFailed
  else
    print SettingDefault ;;
    set_default_rich_menu rich_menu_id ;;
    print SetupDone ;;
    print (Guidance LIFF_APP_URL rich_menu_id).

End Script.

(** How the process ends: [exit(code)], the end of [main], or a traceback. *)
Inductive termination : Type :=
| Exit (code : Z)
| Finished
| Crashed (e : error).

(** The script run as a program (lines 13-22 and 154-155), with the two
    environment variables as [os.getenv] returns them. *)
Definition script (token liff_app_url : option string)
  (format_value : value -> string)
  (server : list request -> request -> option reply) : termination * state :=
  match token with
  | None => (Exit 1, State [] [MissingToken])
  | Some t =>
      if String.eqb t "" then (Exit 1, State [] [MissingToken])
      else
        match liff_app_url with
        | None => (Exit 1, State [] [MissingLiffUrl])
        | Some u =>
            if String.eqb u "" then (Exit 1, State [] [MissingLiffUrl])
            else
              match main t u format_value server (State [] []) with
              | (Done _, s) => (Finished, s)
              | (Raised e, s) => (Crashed e, s)
              end
        end
  end.

(** The three requests the script knows. *)
Definition list_request (token : string) : request :=
  Get (API_BASE ++ "/richmenu/list")%string (HEADERS token).

Definition create_request (token liff_app_url : string) : request :=
  Post (API_BASE ++ "/richmenu")%string (HEADERS token)
       (Some (rich_menu_data liff_app_url)).

Definition default_request (token : string) (format_value : value -> string)
  (rich_menu_id : value) : request :=
  Post (API_BASE ++ "/user/all/richmenu/" ++ format_value rich_menu_id)%string
       (HEADERS token) None.

(** A listed menu the script can print: a dict with a name and an id. *)
Definition printable_menu (menu : value) : bool :=
  match menu with
  | VDict entries =>
      match lookup "name" entries, lookup "richMenuId" entries with
      | Some _, Some _ => true
      | _, _ => false
      end
  | _ => false
  end.

(** [str] on the values of the examples. *)
Definition sample_format (v : value) : string :=
  match v with
  | VStr s => s
  | _ => "None"
  end.

(** The LINE API answering every request with 200; a new menu gets the id
    "richmenu-1" and one menu exists already. *)
Definition sample_server (history : list request) (r : request) : option reply :=
  match r with
  | Get _ _ =>
      Some (Reply 200
              (Some (VDict [("richmenus",
                             VList [VDict [("richMenuId", VStr "richmenu-0");
                                           ("name", VStr "Old menu")]])]%string))
              "")
  | Post _ _ (Some _) =>
      Some (Reply 200 (Some (VDict [("richMenuId", VStr "richmenu-1")]%string)) "")
  | Post _ _ None => Some (Reply 200 (Some (VDict [])) "{}")
  end.

(** The same, but setting the default menu is refused. *)
Definition refusing_default (history : list request) (r : request) : option reply :=
  match r with
  | Post _ _ None => Some (Reply 404 (Some (VDict [])) "Not found")
  | _ => sample_server history r
  end.

(** The same, but the listing is refused. *)
Definition refusing_listing (history : list request) (r : request) : option reply :=
  match r with
  | Get _ _ => Some (Reply 500 None "Internal error")
  | _ => sample_server history r
  end.

(** The same, but one listed menu has no name. *)
Definition nameless_listing (history : list request) (r : request) : option reply :=
  match r with
  | Get _ _ =>
      Some (Reply 200
              (Some (VDict [("richmenus",
                             VList [VDict [("richMenuId", VStr "richmenu-0")]])]%string))
              "")
  | _ => sample_server history r
  end.

(** The same, but the created menu comes back with an empty id. *)
Definition empty_id (history : list request) (r : request) : option reply :=
  match r with
  | Post _ _ (Some _) =>
      Some (Reply 200 (Some (VDict [("richMenuId", VStr "")]%string)) "")
  | _ => sample_server history r
  end.

End RichMenu.

(** An envelope of two text messages, of users U1 and U2. *)
Definition pair_body : list byte :=
  list_byte_of_string
    (json_text ("{'events':[{'type':'message','replyToken':'r1',"
                ++ "'source':{'type':'user','userId':'U1'},"
                ++ "'message':{'type':'text','text':'hello'}},"
                ++ "{'type':'message','replyToken':'r2',"
                ++ "'source':{'type':'user','userId':'U2'},"
                ++ "'message':{'type':'text','text':'boom'}}]}")).

Definition pair_loads (body : list byte) : outcome value :=
  if String.eqb (string_of_list_byte body) (string_of_list_byte pair_body)
  then Ok (VDict [("events", VList [sample_event; boom_event])]%string)
  else Raise JSONDecodeError.

(** * Properties *)

(** ** Test vectors *)

Example sha256_constants :
  firstn 2 Sha256.K = [0x428a2f98; 0x71374491]
  /\ nth 63 Sha256.K 0 = 0xc67178f2
  /\ length Sha256.K = 64%nat
  /\ firstn 2 Sha256.H0 = [0x6a09e667; 0xbb67ae85]
  /\ length Sha256.H0 = 8%nat.
Proof. repeat split. Qed.

Example sha256_abc :
  hex_of (Sha256.digest (list_byte_of_string "abc"))
  = "ba7816bf8f01cfea414140de5dae2223b00361a396177a9cb410ff61f20015ad"%string.
Proof. vm_compute. reflexivity. Qed.

Example sha256_empty :
  hex_of (Sha256.digest [])
  = "e3b0c44298fc1c149afbf4c8996fb92427ae41e4649b934ca495991b7852b855"%string.
Proof. vm_compute. reflexivity. Qed.

Example sha256_two_blocks :
  hex_of (Sha256.digest (repeat "a"%byte 100))
  = "2816597888e4a0d3a36b82b83316ab32680eb8f00f8cd3b904d681246d285a0e"%string.
Proof. vm_compute. reflexivity. Qed.

Example hmac_short_key :
  hex_of (Hmac.digest (list_byte_of_string "key")
            (list_byte_of_string "The quick brown fox jumps over the lazy dog"))
  = "f7bc83f430538424b13298e6aa6fb143ef4d59a14946175997479dbc2d1a3cd8"%string.
Proof. vm_compute. reflexivity. Qed.

Example hmac_long_key :
  hex_of (Hmac.digest (repeat "k"%byte 100) (list_byte_of_string "hello"))
  = "3fd578d761a4f6703009e92d2e8a0aea22ab9ab50d4ad250dc95d8c369dec3f5"%string.
Proof. vm_compute. reflexivity. Qed.

Example b64_vectors :
  map (fun s => string_of_list_byte (Base64.b64encode (list_byte_of_string s)))
      ["a"; "ab"; "abc"]%string
  = ["YQ=="; "YWI="; "YWJj"]%string
  /\ string_of_list_byte (Base64.b64encode [xff; xfe; xfd; xfc]) = "//79/A=="%string.
Proof. split; vm_compute; reflexivity. Qed.

Example hmac_b64_vector :
  hmac_b64 (list_byte_of_string "hello world") "secret"
  = "c0zGLzKEFWj0VxWuufTXiRMk5tlI5MbGDAYhzaxIYjo="%string.
Proof. vm_compute. reflexivity. Qed.

Example sample_event_actionable : actionable sample_event = true.
Proof. reflexivity. Qed.

Example sample_run :
  post_webhook "secret" "token" sample_loads all_up sample_body None fresh
  = (Response 200 status_ok,
     World [Turn (VStr "U1") "user" (VStr "hello");
            Turn (VStr "U1") "assistant" (VStr "hi there")]
           [GetLineConversation (VStr "U1") 10;
            CompleteOnce (completion_request [] (VStr "U1") (VStr "hello"))
              (7 # 10)%Q 500;
            SaveLineMessage (VStr "U1") "user" (VStr "hello");
            SaveLineMessage (VStr "U1") "assistant" (VStr "hi there");
            reply_call "token" (VStr "r1") (VStr "hi there")]).
Proof. vm_compute. reflexivity. Qed.

(** ** The store model *)

Lemma value_eqb_refl : forall v : value, value_eqb v v = true.
Proof.
  fix IH 1. intros [| b | n | f | s | items | entries]; cbn [value_eqb].
  - reflexivity.
  - apply Bool.eqb_reflx.
  - apply Z.eqb_refl.
  - destruct f; cbn; rewrite ?Bool.eqb_reflx, ?Pos.eqb_refl, ?Z.eqb_refl;
      reflexivity.
  - apply String.eqb_refl.
  - induction items as [|x items IHitems]; [reflexivity|].
    now rewrite IH, IHitems.
  - induction entries as [|[k x] entries IHentries]; [reflexivity|].
    now rewrite String.eqb_refl, IH, IHentries.
Qed.

(** A turn just appended is the most recent one of its user. *)
Lemma recent_turns_after_append
  (st : list turn) (user_id : value) (role : string) (text : value) (limit : nat) :
  exists earlier,
    recent_turns (append_turn st user_id role text) user_id (S limit)
    = earlier ++ [turn_message (Turn user_id role text)].
Proof.
  unfold recent_turns, append_turn. rewrite filter_app. cbn [filter turn_user].
  rewrite value_eqb_refl. set (own := filter _ st).
  rewrite length_app. cbn [length].
  replace (length own + 1 - S limit)%nat with (length own - limit)%nat by lia.
  rewrite skipn_app.
  replace (length own - limit - length own)%nat with 0%nat by lia.
  cbn [skipn]. rewrite map_app. eexists. reflexivity.
Qed.

(** ** The event filter *)

Ltac run := cbv [bind lift ret raise try_except].

Lemma actionable_is_dict event :
  actionable event = true -> exists entries, event = VDict entries.
Proof.
  destruct event; try discriminate. intros _. eexists. reflexivity.
Qed.

Lemma handle_actionable token env event :
  actionable event = true ->
  forall w,
    handle_line_event token env event w
    = respond_to_message token env (user_id_of event) (reply_token_of event)
        (text_of event) w.
Proof.
  intros H w. destruct event as [| | | | | |entries]; try discriminate.
  unfold actionable, user_id_of, reply_token_of, text_of in *. cbn [field] in *.
  apply andb_prop in H as [H Ht]. apply andb_prop in H as [H Hr].
  apply andb_prop in H as [H Hu]. apply andb_prop in H as [Hty Hm].
  unfold handle_line_event. run. cbn [py_get].
  destruct (lookup "type" entries) as [ty|]; [|discriminate].
  rewrite Hty. cbn [negb].
  destruct (lookup "message" entries) as [[| | | | | |m]|]; try discriminate.
  cbn [py_get field] in *.
  destruct (lookup "type" m) as [mty|]; [|discriminate].
  rewrite Hm. cbn [negb].
  destruct (lookup "source" entries) as [[| | | | | |s]|]; try discriminate.
  cbn [py_get field] in *.
  destruct (lookup "userId" s) as [u|]; [|discriminate].
  destruct (lookup "replyToken" entries) as [r|]; [|discriminate].
  destruct (lookup "text" m) as [t|]; [|discriminate].
  rewrite Hu, Hr, Ht. reflexivity.
Qed.

Lemma handle_ignored token env event :
  well_shaped_event event = true ->
  actionable event = false ->
  forall w, handle_line_event token env event w = (Ok tt, w).
Proof.
  intros Hs Ha w. destruct event as [| | | | | |entries]; try discriminate.
  unfold well_shaped_event, actionable, user_id_of, reply_token_of, text_of in *.
  cbn [is_dict andb field dict_or_absent] in *.
  unfold handle_line_event. run. cbn [py_get].
  destruct (eq_str _ "message"); [|reflexivity].
  cbn [negb orb andb] in *.
  destruct (lookup "message" entries) as [[| | | | | |m]|]; try discriminate;
    cbn [py_get field lookup eq_str negb] in *; try reflexivity.
  destruct (eq_str _ "text"); [|reflexivity].
  cbn [negb orb andb] in *.
  destruct (lookup "source" entries) as [[| | | | | |s]|]; try discriminate;
    cbn [py_get field lookup] in *.
  - destruct (lookup "userId" s), (lookup "replyToken" entries),
      (lookup "text" m); cbn [truthy] in *;
      change (truthy (VStr "")) with false;
      repeat match goal with
        | |- context [truthy ?v] => destruct (truthy v)
        end; try reflexivity; discriminate.
  - destruct (lookup "replyToken" entries), (lookup "text" m); reflexivity.
Qed.

Lemma handle_ill_shaped token env event :
  well_shaped_event event = false ->
  forall w, handle_line_event token env event w = (Raise AttributeError, w).
Proof.
  intros Hs w. destruct event as [| | | | | |entries]; try reflexivity.
  unfold well_shaped_event in *. cbn [is_dict andb field dict_or_absent] in *.
  unfold handle_line_event. run. cbn [py_get].
  destruct (eq_str _ "message"); [|discriminate].
  cbn [negb orb andb] in *.
  destruct (lookup "message" entries) as [[| | | | | |m]|]; try discriminate;
    cbn [py_get field lookup eq_str negb is_dict andb] in *; try reflexivity.
  destruct (eq_str _ "text"); [|discriminate].
  cbn [negb orb andb] in *.
  destruct (lookup "source" entries) as [[| | | | | |s]|]; try discriminate;
    reflexivity.
Qed.

(** ** The dispatch path, case by case *)

Local Ltac normalise :=
  cbn [store calls]; repeat rewrite <- app_assoc; cbn [app].

(* The apology is attempted and whatever it raises is swallowed. *)
Local Ltac settle :=
  normalise;
  match goal with
  | |- context [match ?answer with Some _ => _ | None => _ end] =>
      destruct answer
  end;
  reflexivity.

Lemma respond_to_message_run
  (token : string) (env : list call -> call -> option value)
  (user_id reply_token user_message : value) (w : world) :
  respond_to_message token env user_id reply_token user_message w
  = (Ok tt, dispatch_world token env user_id reply_token user_message w).
Proof.
  unfold dispatch_world, respond_to_message, get_user_conversation,
    get_line_conversation, complete_once, save_user_message, save_line_message,
    reply_message, invoke, append_turn.
  cbv zeta.
  unfold reply_call, completion_request. run. cbn [store calls].
  destruct (env (calls w) _); [|settle].
  normalise. destruct (env (calls w ++ [_]) _) as [result|]; [|settle].
  destruct (py_get result _ _) as [ai|]; [|settle].
  normalise. destruct (env (calls w ++ [_; _]) _); [|settle].
  normalise. destruct (env (calls w ++ [_; _; _]) _); [|settle].
  normalise. destruct (env (calls w ++ [_; _; _; _]) _); [reflexivity|settle].
Qed.

(** ** Signature verification *)

Lemma list_ascii_of_string_append (s t : string) :
  list_ascii_of_string (s ++ t) = list_ascii_of_string s ++ list_ascii_of_string t.
Proof.
  induction s as [|c s IH]; [reflexivity|]. cbn. now rewrite IH.
Qed.

Lemma is_ascii_append (s t : string) :
  is_ascii (s ++ t) = is_ascii s && is_ascii t.
Proof.
  unfold is_ascii, list_byte_of_string.
  now rewrite list_ascii_of_string_append, map_app, forallb_app.
Qed.

Lemma sextet_ascii (z : Z) : (Sha256.byte_val (Base64.sextet z) <? 128) = true.
Proof.
  unfold Base64.sextet.
  destruct (nth_in_or_default (Z.to_nat (z mod 64)) Base64.alphabet Base64.pad_char)
    as [Hin | ->]; [|reflexivity].
  revert Hin. generalize (nth (Z.to_nat (z mod 64)) Base64.alphabet Base64.pad_char).
  apply (proj1 (forallb_forall _ Base64.alphabet)). vm_compute. reflexivity.
Qed.

Lemma b64encode_ascii_bytes (n : nat) :
  forall bs, (length bs <= n)%nat ->
    forallb (fun b => Sha256.byte_val b <? 128) (Base64.b64encode bs) = true.
Proof.
  induction n as [|n IH]; intros bs Hlen.
  - destruct bs; [reflexivity | cbn in Hlen; lia].
  - destruct bs as [|a [|b [|c rest]]]; cbn [Base64.b64encode forallb].
    + reflexivity.
    + rewrite !sextet_ascii. reflexivity.
    + rewrite !sextet_ascii. reflexivity.
    + rewrite !sextet_ascii. cbn [andb]. apply IH. cbn [length] in Hlen. lia.
Qed.

Lemma hmac_b64_ascii (body : list byte) (secret : string) :
  is_ascii (hmac_b64 body secret) = true.
Proof.
  unfold is_ascii, hmac_b64. rewrite list_byte_of_string_of_list_byte.
  eapply b64encode_ascii_bytes. reflexivity.
Qed.

Lemma append_neq_self (s : string) (c : ascii) :
  (s ++ String c EmptyString)%string <> s.
Proof.
  induction s as [|d s IH]; cbn; [discriminate|].
  intros [= H]. exact (IH H).
Qed.

Lemma present_append (s : string) (c : ascii) :
  present (Some (s ++ String c EmptyString)%string) = true.
Proof. destruct s; reflexivity. Qed.

(** C3 (as the claim has it, refuted): with the empty secret the check is
    skipped, so the signature with "x" appended is accepted as well. *)
Lemma tampered_signature_accepted_without_secret :
  verify_signature "" sample_body (Some (hmac_b64 sample_body "" ++ "x")%string)
  = Ok true.
Proof. reflexivity. Qed.

(** C3 (amended): for every body and every secret the base64 HMAC-SHA256 of
    the body under the secret verifies; for every non-empty secret the same
    signature with "x" appended does not. *)
Theorem verify_signature_hmac (secret : string) (body : list byte) :
  verify_signature secret body (Some (hmac_b64 body secret)) = Ok true
  /\ (secret <> ""%string ->
      verify_signature secret body (Some (hmac_b64 body secret ++ "x")%string)
      = Ok false).
Proof.
  unfold verify_signature, compare_digest. split.
  - destruct (String.eqb secret "" || negb (present _)); [reflexivity|].
    now rewrite hmac_b64_ascii, String.eqb_refl.
  - intros Hs. apply String.eqb_neq in Hs. rewrite Hs, present_append.
    cbn [orb negb]. rewrite is_ascii_append, hmac_b64_ascii.
    cbn [andb]. change (is_ascii "x") with true. cbn [andb].
    now rewrite (proj2 (String.eqb_neq _ _) (append_neq_self _ _)).
Qed.

Lemma verify_signature_hmac_witness :
  "secret"%string <> ""%string
  /\ verify_signature "secret" sample_body (Some (hmac_b64 sample_body "secret"))
     = Ok true
  /\ verify_signature "secret" sample_body
       (Some (hmac_b64 sample_body "secret" ++ "x")%string)
     = Ok false.
Proof.
  split; [discriminate|]. split.
  - apply (proj1 (verify_signature_hmac "secret" sample_body)).
  - apply (proj2 (verify_signature_hmac "secret" sample_body)). discriminate.
Defined.

(** C8: with an empty secret, or with no signature header, verification is
    skipped and returns true, and the route goes on to parse the body and
    dispatch its events. *)
Theorem verification_skipped
  (secret token : string) (json_loads : list byte -> outcome value)
  (env : list call -> call -> option value)
  (body : list byte) (signature : option string) :
  secret = ""%string \/ signature = None ->
  verify_signature secret body signature = Ok true
  /\ line_webhook secret token json_loads env body signature
     = parse_and_dispatch token json_loads env body.
Proof.
  intros H. assert (Hv : verify_signature secret body signature = Ok true).
  { unfold verify_signature. destruct H as [-> | ->]; [reflexivity|].
    cbn [present negb]. now rewrite orb_true_r. }
  split; [exact Hv|]. unfold line_webhook. rewrite Hv.
  destruct (present signature); reflexivity.
Qed.

Lemma verification_skipped_witness :
  (""%string = ""%string \/ Some "bogus"%string = None)
  /\ verify_signature "" sample_body (Some "bogus"%string) = Ok true
  /\ line_webhook "" "token" sample_loads all_up sample_body (Some "bogus"%string)
     = parse_and_dispatch "token" sample_loads all_up sample_body.
Proof.
  split; [left; reflexivity|].
  apply verification_skipped. left. reflexivity.
Defined.

(** With no secret configured a request with any signature is dispatched. *)
Example unsigned_request_dispatched :
  post_webhook "" "token" sample_loads all_up sample_body (Some "bogus"%string) fresh
  = post_webhook "secret" "token" sample_loads all_up sample_body None fresh.
Proof. vm_compute. reflexivity. Qed.

Lemma gate_open secret body signature :
  passes_gate secret body signature ->
  forall w,
    (if present signature then
       valid <- lift (verify_signature secret body signature) ;;
       if negb valid then raise (HTTPException 400 "Invalid signature")
       else ret tt
     else ret tt) w = (Ok tt, w).
Proof.
  unfold passes_gate. intros H w.
  destruct (present signature); [|reflexivity].
  run. now rewrite H.
Qed.

(** C4 (as the claim has it, refuted): a signature header with an empty
    value does not verify against the body, yet the route skips the check
    and the event is dispatched. *)
Lemma empty_signature_header_dispatched :
  "secret"%string <> ""%string
  /\ hmac_b64 sample_body "secret" <> ""%string
  /\ post_webhook "secret" "token" sample_loads all_up sample_body (Some ""%string)
       fresh
     = post_webhook "secret" "token" sample_loads all_up sample_body None fresh
  /\ status (fst (post_webhook "secret" "token" sample_loads all_up sample_body
                    (Some ""%string) fresh)) = 200
  /\ length (calls (snd (post_webhook "secret" "token" sample_loads all_up
                           sample_body (Some ""%string) fresh))) = 5%nat.
Proof.
  split; [discriminate|]. split.
  - intros H. apply (f_equal String.length) in H. vm_compute in H. discriminate H.
  - split; [|split]; vm_compute; reflexivity.
Qed.

(** A signature header with a byte above 127 makes [compare_digest] raise:
    the answer is 500, not the 400 of a rejected signature. *)
Example non_ascii_signature_crashes :
  post_webhook "secret" "token" sample_loads all_up sample_body
    (Some "é"%string) fresh
  = (Response 500 (VStr "Internal Server Error"), fresh).
Proof. vm_compute. reflexivity. Qed.

(** C4 (amended): with a configured secret, a request whose signature header
    is non-empty, ASCII-only and different from the base64 HMAC-SHA256 of
    the body is answered 400, and nothing is stored, completed or sent. *)
Theorem invalid_signature_rejected
  (secret token : string) (json_loads : list byte -> outcome value)
  (env : list call -> call -> option value)
  (body : list byte) (signature : string) (w : world) :
  secret <> ""%string ->
  signature <> ""%string ->
  is_ascii signature = true ->
  signature <> hmac_b64 body secret ->
  post_webhook secret token json_loads env body (Some signature) w
  = (Response 400 (VDict [("detail", VStr "Invalid signature")]%string), w).
Proof.
  intros Hsecret Hsig Hascii Hneq.
  apply String.eqb_neq in Hsecret, Hsig, Hneq.
  unfold post_webhook, line_webhook, verify_signature, compare_digest.
  cbn [present]. rewrite Hsig, Hsecret. cbn [negb orb].
  rewrite Hascii, hmac_b64_ascii, Hneq. reflexivity.
Qed.

Lemma invalid_signature_rejected_witness :
  "secret"%string <> ""%string
  /\ "bogus"%string <> ""%string
  /\ is_ascii "bogus" = true
  /\ "bogus"%string <> hmac_b64 sample_body "secret"
  /\ post_webhook "secret" "token" sample_loads all_up sample_body
       (Some "bogus"%string) fresh
     = (Response 400 (VDict [("detail", VStr "Invalid signature")]%string), fresh).
Proof.
  assert (H : "bogus"%string <> hmac_b64 sample_body "secret").
  { intros H. apply (f_equal String.length) in H. vm_compute in H. discriminate H. }
  split; [discriminate|]. split; [discriminate|]. split; [reflexivity|].
  split; [exact H|].
  apply invalid_signature_rejected;
    [discriminate | discriminate | reflexivity | exact H].
Defined.

(** ** Acknowledgement *)

Lemma handle_well_shaped token env event :
  well_shaped_event event = true ->
  forall w, fst (handle_line_event token env event w) = Ok tt.
Proof.
  intros Hs w. destruct (actionable event) eqn:Ha.
  - now rewrite handle_actionable, respond_to_message_run.
  - now rewrite handle_ignored.
Qed.

Lemma for_each_well_shaped token env items :
  forallb well_shaped_event items = true ->
  forall w, fst (for_each (handle_line_event token env) items w) = Ok tt.
Proof.
  induction items as [|event items IH]; intros H w; [reflexivity|].
  cbn [forallb] in H. apply andb_prop in H as [He Hi].
  cbn [for_each]. unfold bind.
  pose proof (handle_well_shaped token env event He w) as Hev.
  destruct (handle_line_event token env event w) as [[[]|e] w']; [|discriminate].
  apply IH, Hi.
Qed.

Lemma for_each_ill_shaped token env items :
  forallb well_shaped_event items = false ->
  forall w, fst (for_each (handle_line_event token env) items w) = Raise AttributeError.
Proof.
  induction items as [|event items IH]; intros H w; [discriminate|].
  cbn [forallb] in H. cbn [for_each]. unfold bind.
  destruct (well_shaped_event event) eqn:He.
  - pose proof (handle_well_shaped token env event He w) as Hev.
    destruct (handle_line_event token env event w) as [[[]|e] w']; [|discriminate].
    apply IH, H.
  - now rewrite handle_ill_shaped.
Qed.

(** Outside that shape the route raises and the answer is 500. *)
Lemma webhook_ill_shaped
  (secret token : string) (json_loads : list byte -> outcome value)
  (env : list call -> call -> option value)
  (body : list byte) (signature : option string) (data : value) (w : world) :
  passes_gate secret body signature ->
  json_loads body = Ok data ->
  well_shaped_envelope data = false ->
  status (fst (post_webhook secret token json_loads env body signature w)) = 500.
Proof.
  intros Hgate Hparse Hshape.
  unfold post_webhook, line_webhook. unfold bind at 1.
  rewrite (gate_open _ _ _ Hgate).
  unfold parse_and_dispatch. run. rewrite Hparse.
  destruct data as [| | | | | |entries]; try reflexivity.
  cbn [py_get]. cbn [well_shaped_envelope] in Hshape.
  destruct (match lookup "events" entries with Some x => x | None => VList [] end);
    cbn [py_iter] in *; try reflexivity;
    match goal with
    | H : forallb well_shaped_event ?items = false |- _ =>
        pose proof (for_each_ill_shaped token env items H w) as Hrun;
        destruct (for_each _ items w) as [[[]|e] w']; [discriminate|];
        cbn [fst] in Hrun; injection Hrun as ->; reflexivity
    end.
Qed.

(** C1 (as the claim has it, refuted): the body [[]] is well-formed JSON and
    needs no signature, yet the route raises on it and the answer is 500. *)
Lemma array_body_not_acknowledged :
  passes_gate "secret" array_body None
  /\ sample_loads array_body = Ok (VList [])
  /\ post_webhook "secret" "token" sample_loads all_up array_body None fresh
     = (Response 500 (VStr "Internal Server Error"), fresh).
Proof.
  split; [intros H; discriminate H|]. split; vm_compute; reflexivity.
Qed.

(** C1 (amended): a request that passes the signature gate and whose body
    parses to an object whose [events] member, when present, is a list of
    well-shaped event objects is answered 200 {"status":"ok"}, whatever the
    completion service, the store and the transport do for each event. *)
Theorem webhook_acknowledges
  (secret token : string) (json_loads : list byte -> outcome value)
  (env : list call -> call -> option value)
  (body : list byte) (signature : option string) (data : value) (w : world) :
  passes_gate secret body signature ->
  json_loads body = Ok data ->
  well_shaped_envelope data = true ->
  fst (post_webhook secret token json_loads env body signature w)
  = Response 200 status_ok.
Proof.
  intros Hgate Hparse Hshape.
  unfold post_webhook, line_webhook. unfold bind at 1.
  rewrite (gate_open _ _ _ Hgate).
  unfold parse_and_dispatch. run. rewrite Hparse.
  destruct data as [| | | | | |entries]; try discriminate.
  cbn [py_get]. cbn [well_shaped_envelope] in Hshape.
  destruct (py_iter _) as [items|]; [|discriminate].
  pose proof (for_each_well_shaped token env items Hshape w) as Hrun.
  destruct (for_each _ items w) as [[[]|e] w']; [reflexivity|discriminate].
Qed.

Lemma webhook_acknowledges_witness :
  passes_gate "secret" sample_body None
  /\ sample_loads sample_body = Ok (VDict [("events", VList [sample_event])]%string)
  /\ well_shaped_envelope (VDict [("events", VList [sample_event])]%string) = true
  /\ fst (post_webhook "secret" "token" sample_loads transport_down sample_body
            None fresh)
     = Response 200 status_ok.
Proof.
  assert (Hg : passes_gate "secret" sample_body None)
    by (intros H; discriminate H).
  assert (Hp : sample_loads sample_body
               = Ok (VDict [("events", VList [sample_event])]%string))
    by (vm_compute; reflexivity).
  split; [exact Hg|]. split; [exact Hp|]. split; [reflexivity|].
  exact (webhook_acknowledges "secret" "token" sample_loads transport_down
           sample_body None _ fresh Hg Hp eq_refl).
Defined.

(** ** Ignored events *)

(** C6 (as the claim has it, refuted): a text message whose [source] is
    [null] lacks a userId, yet the handler raises instead of dropping it. *)
Lemma sourceless_event_raises :
  truthy (user_id_of sourceless_event) = false
  /\ handle_line_event "token" all_up sourceless_event fresh
     = (Raise AttributeError, fresh).
Proof. split; reflexivity. Qed.

(** C6 (amended): a well-shaped event object whose type is not "message",
    or whose message.type is not "text", or whose userId, replyToken or text
    is missing or empty, is dropped: no store, completion or transport call
    is made and nothing is raised. *)
Theorem ignored_event_dropped
  (token : string) (env : list call -> call -> option value)
  (event : value) (w : world) :
  well_shaped_event event = true ->
  eq_str (field event "type") "message" = false
  \/ eq_str (field (field event "message") "type") "text" = false
  \/ truthy (user_id_of event) = false
  \/ truthy (reply_token_of event) = false
  \/ truthy (text_of event) = false ->
  handle_line_event token env event w = (Ok tt, w).
Proof.
  intros Hshape Hcase. apply handle_ignored; [exact Hshape|].
  unfold actionable.
  destruct Hcase as [H | [H | [H | [H | H]]]]; rewrite H;
    rewrite ?andb_false_r; reflexivity.
Qed.

Lemma ignored_event_dropped_witness :
  well_shaped_event empty_text_event = true
  /\ truthy (text_of empty_text_event) = false
  /\ handle_line_event "token" all_up empty_text_event fresh = (Ok tt, fresh).
Proof.
  split; [reflexivity|]. split; [reflexivity|].
  apply ignored_event_dropped; [reflexivity|].
  right. right. right. right. reflexivity.
Defined.

(** ** Replies *)




(** ** Completion failure, context and persistence *)





Lemma recent_turns_length (st : list turn) (user_id : value) (limit : nat) :
  length (recent_turns st user_id limit)
  = Nat.min limit (length (filter (fun t => value_eqb (turn_user t) user_id) st)).
Proof.
  unfold recent_turns. rewrite length_map, length_skipn. lia.
Qed.

Lemma recent_turns_suffix (st : list turn) (user_id : value) (limit : nat) :
  exists older,
    map turn_message (filter (fun t => value_eqb (turn_user t) user_id) st)
    = older ++ recent_turns st user_id limit.
Proof.
  unfold recent_turns.
  set (own := filter _ st).
  exists (map turn_message (firstn (length own - limit) own)).
  now rewrite <- map_app, firstn_skipn.
Qed.

Example window_of_twenty :
  recent_turns (numbered 10) (VStr "U1") 10
  = map turn_message
      (flat_map (fun i => [Turn (VStr "U1") "user" (VInt (Z.of_nat i));
                           Turn (VStr "U1") "assistant" (VInt (- Z.of_nat i))])
                (seq 6 5)).
Proof. vm_compute. reflexivity. Qed.

Lemma get_user_conversation_run
  (env : list call -> call -> option value) (user_id : value) (w : world) :
  env (calls w) (read_call user_id) <> None ->
  get_user_conversation env user_id w
  = (Ok (recent_turns (store w) user_id 10),
     World (store w) (calls w ++ [read_call user_id])).
Proof.
  intros H. unfold get_user_conversation, get_line_conversation, invoke, read_call in *.
  run. destruct (env (calls w) _); [reflexivity|congruence].
Qed.

(** C7: for an actionable event whose history can be read, the completion
    service receives, in this order, the system prompt, the up-to-10 most
    recent stored turns of the userId, oldest first, and the user turn with
    the event's text; reading the history writes nothing to the store. *)
Theorem completion_request_built
  (token : string) (env : list call -> call -> option value)
  (event : value) (w : world) :
  actionable event = true ->
  env (calls w) (read_call (user_id_of event)) <> None ->
  get_user_conversation env (user_id_of event) w
  = (Ok (recent_turns (store w) (user_id_of event) 10),
     World (store w) (calls w ++ [read_call (user_id_of event)]))
  /\ (exists rest,
        calls (snd (handle_line_event token env event w))
        = calls w
          ++ read_call (user_id_of event)
          :: CompleteOnce
               ([VDict [("role", VStr "system");
                        ("content", VStr system_prompt)]%string]
                ++ recent_turns (store w) (user_id_of event) 10
                ++ [VDict [("role", VStr "user");
                           ("content", text_of event)]%string])
               (7 # 10)%Q 500
          :: rest)
  /\ length (recent_turns (store w) (user_id_of event) 10)
     = Nat.min 10 (length (filter (fun t => value_eqb (turn_user t) (user_id_of event))
                                  (store w)))
  /\ exists older,
       map turn_message
           (filter (fun t => value_eqb (turn_user t) (user_id_of event)) (store w))
       = older ++ recent_turns (store w) (user_id_of event) 10.
Proof.
  intros Ha Hread. split; [now apply get_user_conversation_run|].
  split; [|split; [apply recent_turns_length | apply recent_turns_suffix]].
  rewrite (handle_actionable _ _ _ Ha), respond_to_message_run.
  unfold dispatch_world, read_call, completion_request in *. cbn [snd].
  destruct (env (calls w) _); [|congruence].
  repeat match goal with
    | |- context [match env ?h ?c with _ => _ end] => destruct (env h c)
    | |- context [match py_get ?r ?k ?d with _ => _ end] => destruct (py_get r k d)
    end; cbn [calls]; eexists; reflexivity.
Qed.

Lemma completion_request_built_witness :
  actionable sample_event = true
  /\ all_up (calls (World (numbered 10) []))
       (read_call (user_id_of sample_event)) <> None
  /\ exists rest,
       calls (snd (handle_line_event "token" all_up sample_event
                     (World (numbered 10) [])))
       = read_call (VStr "U1")
         :: CompleteOnce
              ([VDict [("role", VStr "system");
                       ("content", VStr system_prompt)]%string]
               ++ recent_turns (numbered 10) (VStr "U1") 10
               ++ [VDict [("role", VStr "user");
                          ("content", VStr "hello")]%string])
              (7 # 10)%Q 500
         :: rest.
Proof.
  assert (Hread : all_up (calls (World (numbered 10) []))
                    (read_call (user_id_of sample_event)) <> None)
    by discriminate.
  split; [reflexivity|]. split; [exact Hread|].
  exact (proj1 (proj2 (completion_request_built "token" all_up sample_event
                         (World (numbered 10) []) eq_refl Hread))).
Defined.

(** C10: the user turn is appended before the assistant turn and nothing is
    rolled back: when the assistant append raises after the user append
    succeeded, the user turn alone stays in the store and the apology is
    sent on the event's replyToken. *)
Theorem lone_user_turn_persists
  (token : string) (env : list call -> call -> option value)
  (event : value) (w : world) (result ai_response : value) :
  actionable event = true ->
  env (calls w) (read_call (user_id_of event)) <> None ->
  env (calls w ++ [read_call (user_id_of event)])
      (completion_call (store w) (user_id_of event) (text_of event))
  = Some result ->
  py_get result "content" (VStr no_content_text) = Ok ai_response ->
  env (calls w ++ [read_call (user_id_of event);
                   completion_call (store w) (user_id_of event) (text_of event)])
      (SaveLineMessage (user_id_of event) "user" (text_of event)) <> None ->
  env (calls w ++ [read_call (user_id_of event);
                   completion_call (store w) (user_id_of event) (text_of event);
                   SaveLineMessage (user_id_of event) "user" (text_of event)])
      (SaveLineMessage (user_id_of event) "assistant" ai_response) = None ->
  handle_line_event token env event w
  = (Ok tt,
     World (store w ++ [Turn (user_id_of event) "user" (text_of event)])
           (calls w ++ [read_call (user_id_of event);
                        completion_call (store w) (user_id_of event) (text_of event);
                        SaveLineMessage (user_id_of event) "user" (text_of event);
                        SaveLineMessage (user_id_of event) "assistant" ai_response;
                        apology_call token (reply_token_of event)])).
Proof.
  intros Ha Hread Hcmp Hcontent Huser Hassistant.
  rewrite (handle_actionable _ _ _ Ha), respond_to_message_run.
  unfold dispatch_world, read_call, completion_call, apology_call in *.
  destruct (env (calls w) _); [|congruence].
  rewrite Hcmp, Hcontent.
  destruct (env (calls w ++ [_; _]) _); [|congruence].
  now rewrite Hassistant.
Qed.

Lemma lone_user_turn_persists_witness :
  actionable sample_event = true
  /\ assistant_save_fails [] (read_call (VStr "U1")) <> None
  /\ assistant_save_fails [read_call (VStr "U1")]
       (completion_call [] (VStr "U1") (VStr "hello")) = Some generated
  /\ py_get generated "content" (VStr no_content_text) = Ok (VStr "hi there")
  /\ assistant_save_fails
       [read_call (VStr "U1"); completion_call [] (VStr "U1") (VStr "hello")]
       (SaveLineMessage (VStr "U1") "user" (VStr "hello")) <> None
  /\ assistant_save_fails
       [read_call (VStr "U1"); completion_call [] (VStr "U1") (VStr "hello");
        SaveLineMessage (VStr "U1") "user" (VStr "hello")]
       (SaveLineMessage (VStr "U1") "assistant" (VStr "hi there")) = None
  /\ handle_line_event "token" assistant_save_fails sample_event fresh
  = (Ok tt,
     World [Turn (VStr "U1") "user" (VStr "hello")]
           [read_call (VStr "U1");
            completion_call [] (VStr "U1") (VStr "hello");
            SaveLineMessage (VStr "U1") "user" (VStr "hello");
            SaveLineMessage (VStr "U1") "assistant" (VStr "hi there");
            apology_call "token" (VStr "r1")]).
Proof.
  split; [reflexivity|]. split; [discriminate|]. split; [reflexivity|].
  split; [reflexivity|]. split; [discriminate|]. split; [reflexivity|].
  apply (lone_user_turn_persists "token" assistant_save_fails sample_event fresh
           generated (VStr "hi there"));
    try reflexivity; discriminate.
Defined.

(** ** Order of processing *)

(** Two users in one envelope, the completion failing for the second: each
    gets exactly one reply, the generated text and the apology. *)
Example two_users_one_failure :
  let w := snd (for_each (handle_line_event "token" completion_chokes)
                  [sample_event; boom_event] fresh) in
  filter is_reply_call (calls w)
  = [reply_call "token" (VStr "r1") (VStr "hi there");
     reply_call "token" (VStr "r2") (VStr apology_text)]
  /\ store w = [Turn (VStr "U1") "user" (VStr "hello");
                Turn (VStr "U1") "assistant" (VStr "hi there")].
Proof. split; vm_compute; reflexivity. Qed.

Lemma handle_extends
  (token : string) (env : list call -> call -> option value)
  (event : value) (w : world) :
  exists new, calls (snd (handle_line_event token env event w)) = calls w ++ new.
Proof.
  destruct (well_shaped_event event) eqn:Hs.
  - destruct (actionable event) eqn:Ha.
    + rewrite (handle_actionable _ _ _ Ha), respond_to_message_run.
      unfold dispatch_world. cbn [snd].
      repeat match goal with
        | |- context [match env ?h ?c with _ => _ end] => destruct (env h c)
        | |- context [match py_get ?r ?k ?d with _ => _ end] =>
            destruct (py_get r k d)
        end; cbn [calls]; eexists; reflexivity.
    + rewrite handle_ignored by assumption. exists []. cbn. now rewrite app_nil_r.
  - rewrite handle_ill_shaped by assumption. exists []. cbn. now rewrite app_nil_r.
Qed.

Lemma for_each_extends
  (token : string) (env : list call -> call -> option value)
  (events : list value) :
  forall w,
    exists new,
      calls (snd (for_each (handle_line_event token env) events w))
      = calls w ++ new.
Proof.
  induction events as [|event events IH]; intros w.
  - exists []. cbn. now rewrite app_nil_r.
  - cbn [for_each]. unfold bind.
    destruct (handle_extends token env event w) as [new Hnew].
    destruct (handle_line_event token env event w) as [[[]|e] w1]; cbn [snd] in *.
    + destruct (IH w1) as [more Hmore]. exists (new ++ more).
      now rewrite Hmore, Hnew, app_assoc.
    + exists new. exact Hnew.
Qed.

Lemma for_each_app
  (token : string) (env : list call -> call -> option value)
  (before after : list value) :
  forall w,
    for_each (handle_line_event token env) (before ++ after) w
    = match for_each (handle_line_event token env) before w with
      | (Ok _, w1) => for_each (handle_line_event token env) after w1
      | (Raise e, w1) => (Raise e, w1)
      end.
Proof.
  induction before as [|event before IH]; intros w; [reflexivity|].
  cbn [app for_each]. unfold bind.
  destruct (handle_line_event token env event w) as [[[]|e] w1];
    [apply IH | reflexivity].
Qed.

Lemma handle_calls_own
  (token : string) (env : list call -> call -> option value)
  (event : value) (w : world) :
  exists new,
    calls (snd (handle_line_event token env event w)) = calls w ++ new
    /\ Forall (call_of_event token event) new.
Proof.
  destruct (well_shaped_event event) eqn:Hs.
  - destruct (actionable event) eqn:Ha.
    + rewrite (handle_actionable _ _ _ Ha), respond_to_message_run.
      unfold dispatch_world. cbn [snd].
      repeat match goal with
        | |- context [match env ?h ?c with _ => _ end] => destruct (env h c)
        | |- context [match py_get ?r ?k ?d with _ => _ end] =>
            destruct (py_get r k d)
        end; cbn [calls];
        (eexists; split; [reflexivity|];
         repeat apply Forall_cons; try apply Forall_nil;
         cbn [call_of_event reply_call]; eauto).
    + rewrite handle_ignored by assumption. exists []. cbn.
      rewrite app_nil_r. split; [reflexivity | constructor].
  - rewrite handle_ill_shaped by assumption. exists []. cbn.
    rewrite app_nil_r. split; [reflexivity | constructor].
Qed.

Lemma for_each_calls_own
  (token : string) (env : list call -> call -> option value)
  (items : list value) :
  forall w,
    exists new,
      calls (snd (for_each (handle_line_event token env) items w)) = calls w ++ new
      /\ Forall (fun c => exists event, In event items /\ call_of_event token event c)
                new.
Proof.
  induction items as [|event items IH]; intros w.
  - exists []. cbn. rewrite app_nil_r. split; [reflexivity | constructor].
  - cbn [for_each]. unfold bind.
    destruct (handle_calls_own token env event w) as (n1 & H1 & F1).
    destruct (handle_line_event token env event w) as [[[]|e] w1]; cbn [snd] in *.
    + destruct (IH w1) as (n2 & H2 & F2). exists (n1 ++ n2).
      rewrite H2, H1, app_assoc. split; [reflexivity|].
      apply Forall_app. split.
      * eapply Forall_impl; [|exact F1]. intros c Hc. exists event.
        split; [now left | exact Hc].
      * eapply Forall_impl; [|exact F2]. intros c (ev & Hin & Hc). exists ev.
        split; [now right | exact Hc].
    + exists n1. split; [exact H1|].
      eapply Forall_impl; [|exact F1]. intros c Hc. exists event.
      split; [now left | exact Hc].
Qed.

(** C9: the route handles the events of an envelope one after the other in
    list order. For a request that passes the gate and whose body lists the
    events [before ++ event :: after], the route's result and final world are
    those of handling [before] from the start, then [event] to its end
    (apology included) from the world [before] left, then [after] from the
    world [event] left, stopping at the first event that raises. The calls
    of the request form three consecutive blocks in that order: the block of
    [event] holds only calls made for [event], every call for an earlier
    event comes before it and every call for a later event after it. *)
Theorem webhook_handles_events_in_order
  (secret token : string) (json_loads : list byte -> outcome value)
  (env : list call -> call -> option value)
  (body : list byte) (signature : option string)
  (entries : list (string * value))
  (before : list value) (event : value) (after : list value) (w : world) :
  passes_gate secret body signature ->
  json_loads body = Ok (VDict entries) ->
  lookup "events" entries = Some (VList (before ++ event :: after)) ->
  exists w1 w2 w3 r1 r2 r3 earlier own later,
    for_each (handle_line_event token env) before w = (r1, w1)
    /\ handle_line_event token env event w1 = (r2, w2)
    /\ for_each (handle_line_event token env) after w2 = (r3, w3)
    /\ line_webhook secret token json_loads env body signature w
       = match r1, r2, r3 with
         | Raise e, _, _ => (Raise e, w1)
         | Ok _, Raise e, _ => (Raise e, w2)
         | Ok _, Ok _, Raise e => (Raise e, w3)
         | Ok _, Ok _, Ok _ => (Ok status_ok, w3)
         end
    /\ calls w1 = calls w ++ earlier
    /\ calls w2 = calls w ++ earlier ++ own
    /\ calls w3 = calls w ++ earlier ++ own ++ later
    /\ Forall (fun c => exists ev, In ev before /\ call_of_event token ev c) earlier
    /\ Forall (call_of_event token event) own
    /\ Forall (fun c => exists ev, In ev after /\ call_of_event token ev c) later.
Proof.
  intros Hgate Hparse Hevents.
  destruct (for_each_calls_own token env before w) as (earlier & H1 & F1).
  destruct (for_each (handle_line_event token env) before w) as [r1 w1] eqn:E1.
  destruct (handle_calls_own token env event w1) as (own & H2 & F2).
  destruct (handle_line_event token env event w1) as [r2 w2] eqn:E2.
  destruct (for_each_calls_own token env after w2) as (later & H3 & F3).
  destruct (for_each (handle_line_event token env) after w2) as [r3 w3] eqn:E3.
  cbn [snd] in *.
  exists w1, w2, w3, r1, r2, r3, earlier, own, later.
  do 3 (split; [first [reflexivity | assumption]|]).
  split.
  - unfold line_webhook. unfold bind at 1. rewrite (gate_open _ _ _ Hgate).
    unfold parse_and_dispatch. run. rewrite Hparse. cbn [py_get].
    rewrite Hevents. cbn [py_iter]. rewrite for_each_app, E1.
    destruct r1 as [[]|e1]; [|reflexivity].
    cbn [for_each]. unfold bind. rewrite E2.
    destruct r2 as [[]|e2]; [|reflexivity].
    rewrite E3. destruct r3 as [[]|e3]; reflexivity.
  - rewrite H3, H2, H1, <- !app_assoc. auto 10.
Qed.

Lemma webhook_handles_events_in_order_witness :
  passes_gate "secret" pair_body None
  /\ pair_loads pair_body
     = Ok (VDict [("events", VList ([sample_event] ++ boom_event :: []))]%string)
  /\ exists w1 w2 w3 r1 r2 r3 earlier own later,
       for_each (handle_line_event "token" completion_chokes) [sample_event] fresh
       = (r1, w1)
       /\ handle_line_event "token" completion_chokes boom_event w1 = (r2, w2)
       /\ for_each (handle_line_event "token" completion_chokes) [] w2 = (r3, w3)
       /\ line_webhook "secret" "token" pair_loads completion_chokes pair_body None
            fresh
          = match r1, r2, r3 with
            | Raise e, _, _ => (Raise e, w1)
            | Ok _, Raise e, _ => (Raise e, w2)
            | Ok _, Ok _, Raise e => (Raise e, w3)
            | Ok _, Ok _, Ok _ => (Ok status_ok, w3)
            end
       /\ calls w1 = calls fresh ++ earlier
       /\ calls w2 = calls fresh ++ earlier ++ own
       /\ calls w3 = calls fresh ++ earlier ++ own ++ later
       /\ Forall (fun c => exists ev,
                      In ev [sample_event] /\ call_of_event "token" ev c) earlier
       /\ Forall (call_of_event "token" boom_event) own
       /\ Forall (fun c => exists ev, In ev [] /\ call_of_event "token" ev c) later.
Proof.
  assert (Hg : passes_gate "secret" pair_body None) by (intros H; discriminate H).
  assert (Hp : pair_loads pair_body
               = Ok (VDict [("events",
                             VList ([sample_event] ++ boom_event :: []))]%string))
    by (vm_compute; reflexivity).
  split; [exact Hg|]. split; [exact Hp|].
  exact (webhook_handles_events_in_order "secret" "token" pair_loads
           completion_chokes pair_body None _ [sample_event] boom_event []
           fresh Hg Hp eq_refl).
Defined.

(** The two users of the sample envelope: U1 is answered, U2 gets the
    apology, and no call for U2 precedes a call for U1. *)
Example pair_envelope_calls :
  calls (snd (line_webhook "secret" "token" pair_loads completion_chokes pair_body
                None fresh))
  = [read_call (VStr "U1");
     completion_call [] (VStr "U1") (VStr "hello");
     SaveLineMessage (VStr "U1") "user" (VStr "hello");
     SaveLineMessage (VStr "U1") "assistant" (VStr "hi there");
     reply_call "token" (VStr "r1") (VStr "hi there");
     read_call (VStr "U2");
     completion_call [] (VStr "U2") (VStr "boom");
     apology_call "token" (VStr "r2")].
Proof. vm_compute. reflexivity. Qed.

(** * Further properties of the route *)

(** ** The expected signature *)

Lemma blocks_length (fuel : nat) :
  forall h bs, length h = 8%nat -> length (Sha256.blocks fuel h bs) = 8%nat.
Proof.
  induction fuel as [|fuel IH]; intros h bs Hh; cbn [Sha256.blocks].
  - exact Hh.
  - destruct bs; [exact Hh|]. apply IH. reflexivity.
Qed.

Lemma be_bytes_length (n : nat) (z : Z) : length (Sha256.be_bytes n z) = n.
Proof. induction n as [|n IH]; cbn [Sha256.be_bytes length]; congruence. Qed.

Lemma sha256_digest_length (msg : list byte) : length (Sha256.digest msg) = 32%nat.
Proof.
  unfold Sha256.digest.
  pose proof (blocks_length (length (Sha256.pad msg)) Sha256.H0 (Sha256.pad msg)
                eq_refl) as H.
  destruct (Sha256.blocks _ _ _) as [|a [|b [|c [|d [|e [|f [|g [|h [|]]]]]]]]];
    try discriminate H.
  cbn [flat_map]. rewrite !length_app, !be_bytes_length. reflexivity.
Qed.

Lemma b64encode_length (n : nat) :
  forall bs, (length bs <= n)%nat ->
    length (Base64.b64encode bs) = (4 * ((length bs + 2) / 3))%nat.
Proof.
  induction n as [|n IH]; intros bs Hlen.
  - destruct bs; [reflexivity | cbn in Hlen; lia].
  - destruct bs as [|a [|b [|c rest]]]; try reflexivity.
    cbn [Base64.b64encode length] in *. rewrite IH by lia.
    replace (S (S (S (length rest))) + 2)%nat
      with (length rest + 2 + 1 * 3)%nat by lia.
    rewrite Nat.div_add by discriminate. lia.
Qed.

Lemma string_of_list_byte_length (bs : list byte) :
  String.length (string_of_list_byte bs) = length bs.
Proof.
  unfold string_of_list_byte.
  induction bs as [|b bs IH]; [reflexivity|]. cbn. now rewrite IH.
Qed.

Lemma hmac_b64_length (body : list byte) (secret : string) :
  String.length (hmac_b64 body secret) = 44%nat.
Proof.
  unfold hmac_b64, Hmac.digest.
  rewrite string_of_list_byte_length, (b64encode_length _ _ (le_n _)).
  now rewrite sha256_digest_length.
Qed.

Lemma expected_signature_accepted (secret : string) (body : list byte) :
  verify_signature secret body (Some (hmac_b64 body secret)) = Ok true.
Proof.
  unfold verify_signature, compare_digest.
  destruct (String.eqb secret "" || negb (present _)); [reflexivity|].
  now rewrite hmac_b64_ascii, String.eqb_refl.
Qed.

(** What [verify_signature] accepts: everything when the secret is empty or
    the signature is missing or empty, and otherwise exactly the base64
    HMAC-SHA256 of the body under the secret. *)
Theorem verify_signature_accepts_iff
  (secret : string) (body : list byte) (signature : option string) :
  verify_signature secret body signature = Ok true
  <-> secret = ""%string
      \/ present signature = false
      \/ signature = Some (hmac_b64 body secret).
Proof.
  unfold verify_signature, compare_digest. split.
  - destruct (String.eqb_spec secret ""); [now left|].
    destruct (present signature) eqn:Hp; [|now right; left].
    cbn [orb negb]. destruct signature as [s|]; [|discriminate Hp].
    destruct (is_ascii s && _); [|discriminate].
    intros [= H]. apply String.eqb_eq in H. right. right. now subst.
  - intros [-> | [-> | ->]].
    + reflexivity.
    + cbn [negb]. now rewrite orb_true_r.
    + apply expected_signature_accepted.
Qed.

Lemma verify_signature_accepts_iff_witness :
  verify_signature "secret" sample_body (Some (hmac_b64 sample_body "secret"))
  = Ok true.
Proof.
  apply verify_signature_accepts_iff. right. right. reflexivity.
Defined.

(** With a configured secret every accepted, non-empty signature is 44
    ASCII characters long: the base64 form of a 32-byte digest. *)
Theorem accepted_signature_shape
  (secret : string) (body : list byte) (signature : string) :
  secret <> ""%string ->
  signature <> ""%string ->
  verify_signature secret body (Some signature) = Ok true ->
  String.length signature = 44%nat /\ is_ascii signature = true.
Proof.
  intros Hsecret Hsig Hok.
  apply String.eqb_neq in Hsecret, Hsig.
  unfold verify_signature, compare_digest in Hok. cbn [present] in Hok.
  rewrite Hsecret, Hsig in Hok. cbn [orb negb] in Hok.
  destruct (is_ascii signature) eqn:Ha; [|discriminate Hok].
  rewrite hmac_b64_ascii in Hok. cbn [andb] in Hok.
  injection Hok as Heq. apply String.eqb_eq in Heq.
  split; [|reflexivity]. rewrite Heq. apply hmac_b64_length.
Qed.

Lemma accepted_signature_shape_witness :
  "secret"%string <> ""%string
  /\ hmac_b64 sample_body "secret" <> ""%string
  /\ verify_signature "secret" sample_body (Some (hmac_b64 sample_body "secret"))
     = Ok true
  /\ String.length (hmac_b64 sample_body "secret") = 44%nat
  /\ is_ascii (hmac_b64 sample_body "secret") = true.
Proof.
  assert (Hne : hmac_b64 sample_body "secret" <> ""%string).
  { intros H. apply (f_equal String.length) in H.
    rewrite hmac_b64_length in H. discriminate H. }
  assert (Hok : verify_signature "secret" sample_body
                  (Some (hmac_b64 sample_body "secret")) = Ok true)
    by apply expected_signature_accepted.
  split; [discriminate|]. split; [exact Hne|]. split; [exact Hok|].
  apply (accepted_signature_shape "secret" sample_body); [discriminate | exact Hne | exact Hok].
Defined.

(** ** Health check *)

Lemma short_signature_rejected (secret : string) (body : list byte) :
  secret <> ""%string ->
  verify_signature secret body (Some "x"%string) = Ok false.
Proof.
  intros Hsecret. apply String.eqb_neq in Hsecret.
  unfold verify_signature, compare_digest.
  change (present (Some "x"%string)) with true.
  rewrite Hsecret. cbn [orb negb]. rewrite hmac_b64_ascii.
  change (is_ascii "x") with true. cbn [andb].
  destruct (String.eqb_spec "x" (hmac_b64 body secret)) as [H|]; [|reflexivity].
  apply (f_equal String.length) in H. rewrite hmac_b64_length in H.
  discriminate H.
Qed.

(** The health route never raises and touches nothing; it reports the
    channel secret as not configured exactly when signature verification is
    off, that is when every signature is accepted for every body. *)
Theorem health_reports_verification
  (secret token : string) (w : world) :
  exists report,
    line_health secret token w = (Ok report, w)
    /\ field report "status" = VStr "ok"
    /\ (field report "channel_secret_configured" = VBool false
        <-> forall body signature,
              verify_signature secret body signature = Ok true)
    /\ (field report "access_token_configured" = VBool false
        <-> token = ""%string).
Proof.
  eexists. split; [reflexivity|]. split; [reflexivity|].
  cbn [field lookup String.eqb Ascii.eqb Bool.eqb]. unfold str_bool. split; split.
  - intros [= H]. apply negb_false_iff, String.eqb_eq in H. subst secret.
    reflexivity.
  - intros H. destruct (String.eqb_spec secret ""); [reflexivity|].
    specialize (H [] (Some "x"%string)).
    rewrite short_signature_rejected in H by assumption. discriminate H.
  - intros [= H]. now apply negb_false_iff, String.eqb_eq in H.
  - intros ->. reflexivity.
Qed.

(** ** Rejected requests *)

(** A body that [json.loads] cannot decode is answered 400 "Invalid JSON"
    once the signature gate is passed; any other exception of the parser is
    not caught and is answered 500. Nothing is stored, completed or sent. *)
Theorem undecodable_body_rejected
  (secret token : string) (json_loads : list byte -> outcome value)
  (env : list call -> call -> option value)
  (body : list byte) (signature : option string) (e : exn) (w : world) :
  passes_gate secret body signature ->
  json_loads body = Raise e ->
  line_webhook secret token json_loads env body signature w
  = (Raise match e with
           | JSONDecodeError => HTTPException 400 "Invalid JSON"
           | _ => e
           end, w)
  /\ (e = JSONDecodeError ->
      post_webhook secret token json_loads env body signature w
      = (Response 400 (VDict [("detail", VStr "Invalid JSON")]%string), w))
  /\ (e = UnicodeDecodeError ->
      post_webhook secret token json_loads env body signature w
      = (Response 500 (VStr "Internal Server Error"), w)).
Proof.
  intros Hgate Hparse.
  assert (Hrun : line_webhook secret token json_loads env body signature w
                 = (Raise match e with
                          | JSONDecodeError => HTTPException 400 "Invalid JSON"
                          | _ => e
                          end, w)).
  { unfold line_webhook. unfold bind at 1. rewrite (gate_open _ _ _ Hgate).
    unfold parse_and_dispatch. run. rewrite Hparse. destruct e; reflexivity. }
  split; [exact Hrun|].
  unfold post_webhook. rewrite Hrun. split; intros ->; reflexivity.
Qed.

Lemma undecodable_body_rejected_witness :
  passes_gate "secret" (list_byte_of_string "{oops") None
  /\ sample_loads (list_byte_of_string "{oops") = Raise JSONDecodeError
  /\ post_webhook "secret" "token" sample_loads all_up
       (list_byte_of_string "{oops") None fresh
     = (Response 400 (VDict [("detail", VStr "Invalid JSON")]%string), fresh).
Proof.
  assert (Hg : passes_gate "secret" (list_byte_of_string "{oops") None)
    by (intros H; discriminate H).
  assert (Hp : sample_loads (list_byte_of_string "{oops") = Raise JSONDecodeError)
    by (vm_compute; reflexivity).
  split; [exact Hg|]. split; [exact Hp|].
  exact (proj1 (proj2 (undecodable_body_rejected "secret" "token" sample_loads
                         all_up _ None _ fresh Hg Hp)) eq_refl).
Defined.

Lemma for_each_outcome
  (token : string) (env : list call -> call -> option value)
  (items : list value) (w : world) :
  fst (for_each (handle_line_event token env) items w) = Ok tt
  \/ fst (for_each (handle_line_event token env) items w) = Raise AttributeError.
Proof.
  destruct (forallb well_shaped_event items) eqn:Hs.
  - left. now apply for_each_well_shaped.
  - right. now apply for_each_ill_shaped.
Qed.

Lemma parse_and_dispatch_http_exception
  (token : string) (json_loads : list byte -> outcome value)
  (env : list call -> call -> option value)
  (body : list byte) (w w' : world) (code : Z) (detail : string) :
  parse_and_dispatch token json_loads env body w
  = (Raise (HTTPException code detail), w') ->
  w' = w.
Proof.
  unfold parse_and_dispatch. run.
  destruct (json_loads body) as [data|e].
  - destruct data as [| | | | | |entries]; cbn [py_get]; try discriminate.
    destruct (match lookup "events" entries with Some x => x | None => VList [] end);
      cbn [py_iter]; try discriminate;
      match goal with
      | |- context [for_each ?f ?items w] =>
          destruct (for_each_outcome token env items w) as [H | H];
          destruct (for_each f items w) as [[[]|e] w1]; cbn [fst] in H;
          try discriminate; injection H as ->; discriminate
      end.
  - destruct e; intros [= _ _ <-]; reflexivity.
Qed.

Lemma line_webhook_http_exception
  (secret token : string) (json_loads : list byte -> outcome value)
  (env : list call -> call -> option value)
  (body : list byte) (signature : option string) (w w' : world)
  (code : Z) (detail : string) :
  line_webhook secret token json_loads env body signature w
  = (Raise (HTTPException code detail), w') ->
  w' = w.
Proof.
  unfold line_webhook. unfold bind at 1.
  destruct (present signature).
  - run. destruct (verify_signature secret body signature) as [[|]|e]; cbn [negb].
    + apply parse_and_dispatch_http_exception.
    + now intros [= _ _ <-].
    + now intros [= _ <-].
  - apply parse_and_dispatch_http_exception.
Qed.

(** A request answered 400 has had no side effect: the route raises its
    HTTPExceptions before the first event is looked at. *)
Theorem rejection_has_no_side_effects
  (secret token : string) (json_loads : list byte -> outcome value)
  (env : list call -> call -> option value)
  (body : list byte) (signature : option string) (w : world) :
  status (fst (post_webhook secret token json_loads env body signature w)) = 400 ->
  snd (post_webhook secret token json_loads env body signature w) = w.
Proof.
  unfold post_webhook.
  destruct (line_webhook secret token json_loads env body signature w)
    as [[v|e] w'] eqn:Hrun; cbn [fst snd http_response status]; [discriminate|].
  destruct e; try discriminate. intros _.
  eapply line_webhook_http_exception, Hrun.
Qed.

Lemma rejection_has_no_side_effects_witness :
  status (fst (post_webhook "secret" "token" sample_loads all_up sample_body
                 (Some "bogus"%string) fresh)) = 400
  /\ snd (post_webhook "secret" "token" sample_loads all_up sample_body
            (Some "bogus"%string) fresh) = fresh.
Proof.
  assert (H : status (fst (post_webhook "secret" "token" sample_loads all_up
                             sample_body (Some "bogus"%string) fresh)) = 400)
    by (vm_compute; reflexivity).
  split; [exact H|]. apply rejection_has_no_side_effects, H.
Defined.

(** ** The dispatch path: answers and persistence *)

(** When every collaborator answers and the completion result is a dict,
    the user turn and then the assistant turn are stored and one reply is
    sent on the event's replyToken; the text stored and sent is the result's
    [content] member, whatever it is, and the fixed no-content text only
    when that member is missing. *)
Theorem successful_dispatch
  (token : string) (env : list call -> call -> option value)
  (event : value) (w : world) (entries : list (string * value)) :
  actionable event = true ->
  env (calls w) (read_call (user_id_of event)) <> None ->
  env (calls w ++ [read_call (user_id_of event)])
      (completion_call (store w) (user_id_of event) (text_of event))
  = Some (VDict entries) ->
  env (calls w ++ [read_call (user_id_of event);
                   completion_call (store w) (user_id_of event) (text_of event)])
      (SaveLineMessage (user_id_of event) "user" (text_of event)) <> None ->
  env (calls w ++ [read_call (user_id_of event);
                   completion_call (store w) (user_id_of event) (text_of event);
                   SaveLineMessage (user_id_of event) "user" (text_of event)])
      (SaveLineMessage (user_id_of event) "assistant" (answer_text entries))
  <> None ->
  env (calls w ++ [read_call (user_id_of event);
                   completion_call (store w) (user_id_of event) (text_of event);
                   SaveLineMessage (user_id_of event) "user" (text_of event);
                   SaveLineMessage (user_id_of event) "assistant"
                     (answer_text entries)])
      (reply_call token (reply_token_of event) (answer_text entries)) <> None ->
  handle_line_event token env event w
  = (Ok tt,
     World (store w ++ [Turn (user_id_of event) "user" (text_of event);
                        Turn (user_id_of event) "assistant" (answer_text entries)])
           (calls w ++ [read_call (user_id_of event);
                        completion_call (store w) (user_id_of event) (text_of event);
                        SaveLineMessage (user_id_of event) "user" (text_of event);
                        SaveLineMessage (user_id_of event) "assistant"
                          (answer_text entries);
                        reply_call token (reply_token_of event)
                          (answer_text entries)])).
Proof.
  intros Ha Hread Hcmp Huser Hassistant Hreply.
  rewrite (handle_actionable _ _ _ Ha), respond_to_message_run.
  unfold dispatch_world, read_call, completion_call, answer_text in *.
  destruct (env (calls w) _); [|congruence].
  rewrite Hcmp. cbn [py_get].
  destruct (env (calls w ++ [_; _]) _); [|congruence].
  destruct (env (calls w ++ [_; _; _]) _); [|congruence].
  destruct (env (calls w ++ [_; _; _; _]) _); [reflexivity|congruence].
Qed.

Lemma successful_dispatch_witness :
  actionable sample_event = true
  /\ answer_text [("finish_reason", VStr "length")]%string = VStr no_content_text
  /\ handle_line_event "token" completion_without_content sample_event fresh
     = (Ok tt,
        World [Turn (VStr "U1") "user" (VStr "hello");
               Turn (VStr "U1") "assistant" (VStr no_content_text)]
              [read_call (VStr "U1");
               completion_call [] (VStr "U1") (VStr "hello");
               SaveLineMessage (VStr "U1") "user" (VStr "hello");
               SaveLineMessage (VStr "U1") "assistant" (VStr no_content_text);
               reply_call "token" (VStr "r1") (VStr no_content_text)]).
Proof.
  split; [reflexivity|]. split; [reflexivity|].
  apply (successful_dispatch "token" completion_without_content sample_event fresh
           [("finish_reason", VStr "length")]%string);
    try reflexivity; discriminate.
Defined.

(** A completion result that is not a dict has no [get]: the error is
    caught, nothing is stored and the apology is the only reply. *)
Theorem malformed_completion_apologises
  (token : string) (env : list call -> call -> option value)
  (event : value) (w : world) (result : value) :
  actionable event = true ->
  env (calls w) (read_call (user_id_of event)) <> None ->
  env (calls w ++ [read_call (user_id_of event)])
      (completion_call (store w) (user_id_of event) (text_of event))
  = Some result ->
  is_dict result = false ->
  handle_line_event token env event w
  = (Ok tt,
     World (store w)
           (calls w ++ [read_call (user_id_of event);
                        completion_call (store w) (user_id_of event) (text_of event);
                        apology_call token (reply_token_of event)])).
Proof.
  intros Ha Hread Hcmp Hdict.
  rewrite (handle_actionable _ _ _ Ha), respond_to_message_run.
  unfold dispatch_world, read_call, completion_call, apology_call in *.
  destruct (env (calls w) _); [|congruence].
  rewrite Hcmp. destruct result; try discriminate Hdict; reflexivity.
Qed.

Lemma malformed_completion_apologises_witness :
  actionable sample_event = true
  /\ is_dict VNone = false
  /\ handle_line_event "token" completion_returns_none sample_event fresh
     = (Ok tt,
        World []
              [read_call (VStr "U1");
               completion_call [] (VStr "U1") (VStr "hello");
               apology_call "token" (VStr "r1")]).
Proof.
  split; [reflexivity|]. split; [reflexivity|].
  apply (malformed_completion_apologises "token" completion_returns_none
           sample_event fresh VNone);
    try reflexivity; discriminate.
Defined.

Lemma handle_store
  (token : string) (env : list call -> call -> option value)
  (event : value) (w : world) :
  exists added,
    store (snd (handle_line_event token env event w)) = store w ++ added
    /\ (length added <= 2)%nat
    /\ Forall (own_turn (user_id_of event)) added.
Proof.
  destruct (well_shaped_event event) eqn:Hs.
  - destruct (actionable event) eqn:Ha.
    + rewrite (handle_actionable _ _ _ Ha), respond_to_message_run.
      unfold dispatch_world. cbn [snd].
      repeat match goal with
        | |- context [match env ?h ?c with _ => _ end] => destruct (env h c)
        | |- context [match py_get ?r ?k ?d with _ => _ end] =>
            destruct (py_get r k d)
        end; cbn [store];
        first [ exists []; rewrite app_nil_r; split; [reflexivity|];
                split; [cbn; lia | constructor]
              | eexists; split; [reflexivity|]; split; [cbn; lia|];
                repeat apply Forall_cons; try apply Forall_nil;
                unfold own_turn; cbn; auto ].
    + rewrite handle_ignored by assumption. exists []. cbn.
      rewrite app_nil_r. repeat split; [lia | constructor].
  - rewrite handle_ill_shaped by assumption. exists []. cbn.
    rewrite app_nil_r. repeat split; [lia | constructor].
Qed.

Lemma for_each_store
  (token : string) (env : list call -> call -> option value)
  (items : list value) :
  forall w,
    exists added,
      store (snd (for_each (handle_line_event token env) items w)) = store w ++ added
      /\ (length added <= 2 * length items)%nat
      /\ Forall (fun t => exists event, In event items /\ own_turn (user_id_of event) t)
                added.
Proof.
  induction items as [|event items IH]; intros w.
  - exists []. cbn. rewrite app_nil_r. repeat split; [lia | constructor].
  - cbn [for_each]. unfold bind.
    destruct (handle_store token env event w) as (a1 & H1 & L1 & F1).
    destruct (handle_line_event token env event w) as [[[]|e] w1]; cbn [snd] in *.
    + destruct (IH w1) as (a2 & H2 & L2 & F2). exists (a1 ++ a2).
      rewrite H2, H1, app_assoc, length_app. split; [reflexivity|].
      split; [cbn [length]; lia|].
      apply Forall_app. split.
      * eapply Forall_impl; [|exact F1]. intros t Ht. exists event.
        split; [now left | exact Ht].
      * eapply Forall_impl; [|exact F2]. intros t (ev & Hin & Ht). exists ev.
        split; [now right | exact Ht].
    + exists a1. split; [exact H1|]. split; [cbn [length]; lia|].
      eapply Forall_impl; [|exact F1]. intros t Ht. exists event.
      split; [now left | exact Ht].
Qed.

Lemma post_webhook_world
  (secret token : string) (json_loads : list byte -> outcome value)
  (env : list call -> call -> option value)
  (body : list byte) (signature : option string) (w : world) :
  snd (post_webhook secret token json_loads env body signature w)
  = snd (line_webhook secret token json_loads env body signature w).
Proof.
  unfold post_webhook. now destruct (line_webhook _ _ _ _ _ _ _).
Qed.

(** The route only ever appends to the conversation store: whatever the
    request and whatever the collaborators do, the turns stored before are
    still there, in the same order, followed by the new ones; each new turn
    has role "user" or "assistant". *)
Theorem store_append_only
  (secret token : string) (json_loads : list byte -> outcome value)
  (env : list call -> call -> option value)
  (body : list byte) (signature : option string) (w : world) :
  exists added,
    store (snd (post_webhook secret token json_loads env body signature w))
    = store w ++ added
    /\ Forall (fun t => turn_role t = "user"%string \/ turn_role t = "assistant"%string)
              added.
Proof.
  assert (Hnone : exists added,
             store w = store w ++ added
             /\ Forall (fun t => turn_role t = "user"%string
                                 \/ turn_role t = "assistant"%string) added).
  { exists []. rewrite app_nil_r. split; [reflexivity | constructor]. }
  assert (Hparse : exists added,
             store (snd (parse_and_dispatch token json_loads env body w))
             = store w ++ added
             /\ Forall (fun t => turn_role t = "user"%string
                                 \/ turn_role t = "assistant"%string) added).
  { unfold parse_and_dispatch. run.
    destruct (json_loads body) as [data|e]; [|destruct e; exact Hnone].
    destruct data as [| | | | | |entries]; cbn [py_get snd]; try exact Hnone.
    destruct (py_iter _) as [items|e]; cbn [snd]; [|exact Hnone].
    destruct (for_each_store token env items w) as (added & Hst & _ & Hall).
    destruct (for_each _ items w) as [[[]|e] w1]; cbn [snd] in *;
      exists added; (split; [exact Hst|]);
      (eapply Forall_impl; [|exact Hall]); intros t (ev & _ & _ & Hrole);
      exact Hrole. }
  rewrite post_webhook_world. unfold line_webhook. unfold bind at 1.
  destruct (present signature).
  - run. destruct (verify_signature secret body signature) as [[|]|e];
      cbn [negb snd]; try exact Hnone. exact Hparse.
  - run. exact Hparse.
Qed.

(** Handling one event stores at most two turns, all of them under that
    event's userId. *)
Theorem event_stores_own_turns
  (token : string) (env : list call -> call -> option value)
  (event : value) (w : world) :
  exists added,
    store (snd (handle_line_event token env event w)) = store w ++ added
    /\ (length added <= 2)%nat
    /\ Forall (fun t => turn_user t = user_id_of event) added.
Proof.
  destruct (handle_store token env event w) as (added & Hst & Hlen & Hall).
  exists added. split; [exact Hst|]. split; [exact Hlen|].
  eapply Forall_impl; [|exact Hall]. now intros t [Hu _].
Qed.

(** Handling an event reaches out only on that event's behalf: it reads and
    writes the history of the event's userId alone, and every HTTP request
    it sends is a reply on the event's replyToken, never a push. *)
Theorem event_calls_are_its_own
  (token : string) (env : list call -> call -> option value)
  (event : value) (w : world) :
  exists new,
    calls (snd (handle_line_event token env event w)) = calls w ++ new
    /\ (length new <= 6)%nat
    /\ Forall (call_of_event token event) new.
Proof.
  destruct (well_shaped_event event) eqn:Hs.
  - destruct (actionable event) eqn:Ha.
    + rewrite (handle_actionable _ _ _ Ha), respond_to_message_run.
      unfold dispatch_world. cbn [snd].
      repeat match goal with
        | |- context [match env ?h ?c with _ => _ end] => destruct (env h c)
        | |- context [match py_get ?r ?k ?d with _ => _ end] =>
            destruct (py_get r k d)
        end; cbn [calls];
        (eexists; split; [reflexivity|]; split; [cbn; lia|];
         repeat apply Forall_cons; try apply Forall_nil;
         cbn [call_of_event reply_call]; eauto).
    + rewrite handle_ignored by assumption. exists []. cbn.
      rewrite app_nil_r. repeat split; [lia | constructor].
  - rewrite handle_ill_shaped by assumption. exists []. cbn.
    rewrite app_nil_r. repeat split; [lia | constructor].
Qed.

(** A generated answer reaches the user only after both turns are stored:
    whenever handling an actionable event sends a reply other than the
    apology, the store ends with that event's user turn followed by the
    assistant turn holding exactly the text that was sent. *)
Theorem answer_sent_only_after_persisted
  (token : string) (env : list call -> call -> option value)
  (event : value) (w : world) :
  actionable event = true ->
  exists new,
    calls (snd (handle_line_event token env event w)) = calls w ++ new
    /\ forall text,
         In (reply_call token (reply_token_of event) text) new ->
         text <> VStr apology_text ->
         store (snd (handle_line_event token env event w))
         = store w ++ [Turn (user_id_of event) "user" (text_of event);
                       Turn (user_id_of event) "assistant" text].
Proof.
  intros Ha. rewrite (handle_actionable _ _ _ Ha), respond_to_message_run.
  unfold dispatch_world. cbn [snd].
  repeat match goal with
    | |- context [match env ?h ?c with _ => _ end] => destruct (env h c)
    | |- context [match py_get ?r ?k ?d with _ => _ end] => destruct (py_get r k d)
    end; cbn [calls store];
    (eexists; split; [reflexivity|]; intros text Hin Hneq; cbn [In] in Hin;
     repeat match type of Hin with
       | _ \/ _ => destruct Hin as [Hin | Hin]
       end;
     try contradiction; try discriminate Hin;
     unfold reply_call, reply_payload in Hin; injection Hin as Hin;
     subst; try reflexivity; contradiction).
Qed.

Lemma answer_sent_only_after_persisted_witness :
  actionable sample_event = true
  /\ exists new,
       calls (snd (handle_line_event "token" all_up sample_event fresh))
       = calls fresh ++ new
       /\ forall text,
            In (reply_call "token" (reply_token_of sample_event) text) new ->
            text <> VStr apology_text ->
            store (snd (handle_line_event "token" all_up sample_event fresh))
            = store fresh
              ++ [Turn (user_id_of sample_event) "user" (text_of sample_event);
                  Turn (user_id_of sample_event) "assistant" text].
Proof.
  split; [reflexivity|].
  apply answer_sent_only_after_persisted. reflexivity.
Defined.

(** ** Envelopes *)

Lemma for_each_ignored
  (token : string) (env : list call -> call -> option value)
  (items : list value) (w : world) :
  forallb (fun event => well_shaped_event event && negb (actionable event)) items
  = true ->
  for_each (handle_line_event token env) items w = (Ok tt, w).
Proof.
  induction items as [|event items IH]; intros H; [reflexivity|].
  cbn [forallb] in H. apply andb_prop in H as [He Hi].
  apply andb_prop in He as [Hs Ha]. apply negb_true_iff in Ha.
  cbn [for_each]. unfold bind. rewrite handle_ignored by assumption.
  apply IH, Hi.
Qed.

(** An envelope with no actionable event - no [events] member, an empty
    list, or only well-shaped events that are not text messages with userId,
    replyToken and text - is acknowledged without any store, completion or
    transport call. *)
Theorem idle_envelope_acknowledged
  (secret token : string) (json_loads : list byte -> outcome value)
  (env : list call -> call -> option value)
  (body : list byte) (signature : option string)
  (entries : list (string * value)) (items : list value) (w : world) :
  passes_gate secret body signature ->
  json_loads body = Ok (VDict entries) ->
  py_iter (match lookup "events" entries with
           | Some x => x
           | None => VList []
           end) = Ok items ->
  forallb (fun event => well_shaped_event event && negb (actionable event)) items
  = true ->
  post_webhook secret token json_loads env body signature w
  = (Response 200 status_ok, w).
Proof.
  intros Hgate Hparse Hiter Hidle.
  unfold post_webhook, line_webhook. unfold bind at 1.
  rewrite (gate_open _ _ _ Hgate).
  unfold parse_and_dispatch. run. rewrite Hparse. cbn [py_get].
  rewrite Hiter, (for_each_ignored _ _ _ _ Hidle). reflexivity.
Qed.

Lemma idle_envelope_acknowledged_witness :
  passes_gate "secret" ping_body None
  /\ ping_loads ping_body
     = Ok (VDict [("destination", VStr "Uxxx"); ("events", VList [])]%string)
  /\ post_webhook "secret" "token" ping_loads all_up ping_body None fresh
     = (Response 200 status_ok, fresh).
Proof.
  assert (Hg : passes_gate "secret" ping_body None) by (intros H; discriminate H).
  assert (Hp : ping_loads ping_body
               = Ok (VDict [("destination", VStr "Uxxx");
                            ("events", VList [])]%string))
    by (vm_compute; reflexivity).
  split; [exact Hg|]. split; [exact Hp|].
  exact (idle_envelope_acknowledged "secret" "token" ping_loads all_up ping_body
           None _ [] fresh Hg Hp eq_refl eq_refl).
Defined.

Example follow_and_sticker_ignored :
  forallb (fun event => well_shaped_event event && negb (actionable event))
          [follow_event; sticker_event; empty_text_event] = true.
Proof. reflexivity. Qed.

(** The first ill-shaped event aborts the request: the events before it
    have been handled and keep their effects, the events after it are never
    looked at, and the platform is answered 500. *)
Theorem ill_shaped_event_aborts
  (secret token : string) (json_loads : list byte -> outcome value)
  (env : list call -> call -> option value)
  (body : list byte) (signature : option string)
  (entries : list (string * value)) (before : list value) (bad : value)
  (after : list value) (w : world) :
  passes_gate secret body signature ->
  json_loads body = Ok (VDict entries) ->
  lookup "events" entries = Some (VList (before ++ bad :: after)) ->
  forallb well_shaped_event before = true ->
  well_shaped_event bad = false ->
  post_webhook secret token json_loads env body signature w
  = (Response 500 (VStr "Internal Server Error"),
     snd (for_each (handle_line_event token env) before w)).
Proof.
  intros Hgate Hparse Hevents Hbefore Hbad.
  unfold post_webhook, line_webhook. unfold bind at 1.
  rewrite (gate_open _ _ _ Hgate).
  unfold parse_and_dispatch. run. rewrite Hparse. cbn [py_get].
  rewrite Hevents. cbn [py_iter]. rewrite for_each_app.
  pose proof (for_each_well_shaped token env before Hbefore w) as Hrun.
  destruct (for_each _ before w) as [[[]|e] w1]; [|discriminate Hrun].
  cbn [for_each snd]. unfold bind. rewrite handle_ill_shaped by assumption.
  reflexivity.
Qed.

Lemma ill_shaped_event_aborts_witness :
  passes_gate "secret" mixed_body None
  /\ mixed_loads mixed_body = Ok (VDict [("events", VList mixed_events)]%string)
  /\ forallb well_shaped_event [sample_event] = true
  /\ well_shaped_event sourceless_event = false
  /\ post_webhook "secret" "token" mixed_loads all_up mixed_body None fresh
     = (Response 500 (VStr "Internal Server Error"),
        snd (handle_line_event "token" all_up sample_event fresh)).
Proof.
  assert (Hg : passes_gate "secret" mixed_body None) by (intros H; discriminate H).
  assert (Hp : mixed_loads mixed_body
               = Ok (VDict [("events", VList mixed_events)]%string))
    by (vm_compute; reflexivity).
  split; [exact Hg|]. split; [exact Hp|]. split; [reflexivity|].
  split; [reflexivity|].
  rewrite (ill_shaped_event_aborts "secret" "token" mixed_loads all_up mixed_body
             None _ [sample_event] sourceless_event [boom_event] fresh
             Hg Hp eq_refl eq_refl eq_refl).
  vm_compute. reflexivity.
Defined.

Example aborted_request_keeps_first_reply :
  filter is_reply_call
    (calls (snd (post_webhook "secret" "token" mixed_loads all_up mixed_body None
                   fresh)))
  = [reply_call "token" (VStr "r1") (VStr "hi there")].
Proof. vm_compute. reflexivity. Qed.

(** * Properties of the rich menu setup *)

Local Ltac step :=
  cbv [RichMenu.bind RichMenu.ret RichMenu.fail RichMenu.print RichMenu.send
       RichMenu.response_json].

Lemma script_for_each_sent {A : Type} (body : A -> RichMenu.run unit) :
  (forall x s, RichMenu.sent (snd (body x s)) = RichMenu.sent s) ->
  forall items s,
    RichMenu.sent (snd (RichMenu.for_each body items s)) = RichMenu.sent s.
Proof.
  intros Hbody. induction items as [|x items IH]; intros s; [reflexivity|].
  cbn [RichMenu.for_each]. unfold RichMenu.bind.
  specialize (Hbody x s). destruct (body x s) as [[[]|e] s1]; cbn [snd] in *.
  - now rewrite IH.
  - exact Hbody.
Qed.

Lemma menu_line_sent (menu : value) (s : RichMenu.state) :
  RichMenu.sent (snd (RichMenu.print_menu_line menu s)) = RichMenu.sent s.
Proof.
  destruct menu as [| | | | | |entries]; try reflexivity.
  unfold RichMenu.print_menu_line, RichMenu.subscript. step.
  destruct (lookup "name" entries); [|reflexivity].
  destruct (lookup "richMenuId" entries); reflexivity.
Qed.

Lemma list_rich_menus_sent
  (token : string) (server : list RichMenu.request -> RichMenu.request -> option RichMenu.reply)
  (s : RichMenu.state) :
  RichMenu.sent (snd (RichMenu.list_rich_menus token server s))
  = RichMenu.sent s ++ [RichMenu.list_request token].
Proof.
  unfold RichMenu.list_rich_menus, RichMenu.list_request. step.
  destruct (server (RichMenu.sent s) _) as [answer|]; [|reflexivity].
  destruct (RichMenu.status_code answer =? 200); [|reflexivity].
  destruct (RichMenu.json_body answer) as [body|]; [|reflexivity].
  destruct body as [| | | | | |entries]; try reflexivity.
  cbn [RichMenu.get_member]. step.
  destruct (match lookup "richmenus" entries with Some x => x | None => VList [] end)
    as [| | | | text | items | members]; try reflexivity;
    cbn [RichMenu.has_len RichMenu.iterate py_iter]; step;
    match goal with
    | |- context [RichMenu.for_each ?body ?items ?s0] =>
        pose proof (script_for_each_sent body menu_line_sent items s0) as H;
        destruct (RichMenu.for_each body items s0) as [[[]|e] s1];
        cbn [snd RichMenu.sent] in *; exact H
    end.
Qed.

(** With the access token or the LIFF URL unset or empty the script exits
    with status 1 before sending anything. *)
Theorem script_requires_configuration
  (token liff_app_url : option string) (format_value : value -> string)
  (server : list RichMenu.request -> RichMenu.request -> option RichMenu.reply) :
  present token = false \/ present liff_app_url = false ->
  exists m,
    RichMenu.script token liff_app_url format_value server
    = (RichMenu.Exit 1, RichMenu.State [] [m]).
Proof.
  unfold RichMenu.script, present.
  destruct token as [t|]; [|eexists; reflexivity].
  destruct (String.eqb t ""); [eexists; reflexivity|].
  destruct liff_app_url as [u|]; [|eexists; reflexivity].
  destruct (String.eqb u ""); [eexists; reflexivity|].
  cbn [negb]. intros [H | H]; discriminate H.
Qed.

Lemma script_requires_configuration_witness :
  (present (Some "token"%string) = false \/ present (Some ""%string) = false)
  /\ RichMenu.script (Some "token"%string) (Some ""%string) RichMenu.sample_format
       RichMenu.sample_server
     = (RichMenu.Exit 1, RichMenu.State [] [RichMenu.MissingLiffUrl]).
Proof.
  split; [right; reflexivity|].
  destruct (script_requires_configuration (Some "token"%string) (Some ""%string)
              RichMenu.sample_format RichMenu.sample_server
              (or_intror eq_refl)) as [m Hm].
  rewrite Hm. vm_compute in Hm. injection Hm as <-. reflexivity.
Defined.

Lemma create_rich_menu_run
  (token liff_app_url : string)
  (server : list RichMenu.request -> RichMenu.request -> option RichMenu.reply)
  (s : RichMenu.state) :
  exists r s',
    RichMenu.create_rich_menu token liff_app_url server s = (r, s')
    /\ RichMenu.sent s'
       = RichMenu.sent s ++ [RichMenu.create_request token liff_app_url]
    /\ forall rich_menu_id,
         r = RichMenu.Done rich_menu_id ->
         truthy rich_menu_id = true ->
         exists answer entries,
           server (RichMenu.sent s) (RichMenu.create_request token liff_app_url)
           = Some answer
           /\ RichMenu.status_code answer = 200
           /\ RichMenu.json_body answer = Some (VDict entries)
           /\ lookup "richMenuId" entries = Some rich_menu_id.
Proof.
  unfold RichMenu.create_rich_menu, RichMenu.create_request. step.
  destruct (server (RichMenu.sent s) _) as [answer|] eqn:Hcreate.
  - destruct (RichMenu.status_code answer =? 200) eqn:Hstatus.
    + apply Z.eqb_eq in Hstatus.
      destruct (RichMenu.json_body answer) as [body|] eqn:Hbody.
      * destruct body as [| | | | | |entries]; cbn [RichMenu.subscript]; step;
          try (eexists; eexists; split; [reflexivity|]; split; [reflexivity|];
               intros id H; discriminate H).
        destruct (lookup "richMenuId" entries) as [rich_menu_id|] eqn:Hid;
          eexists; eexists; (split; [reflexivity|]); (split; [reflexivity|]).
        -- intros id [= <-] _. exists answer, entries. auto.
        -- intros id H. discriminate H.
      * eexists; eexists; split; [reflexivity|]; split; [reflexivity|].
        intros id H. discriminate H.
    + eexists; eexists; split; [reflexivity|]; split; [reflexivity|].
      intros id [= <-] Ht. discriminate Ht.
  - eexists; eexists; split; [reflexivity|]; split; [reflexivity|].
    intros id H. discriminate H.
Qed.

Lemma set_default_rich_menu_sent
  (token : string) (format_value : value -> string)
  (server : list RichMenu.request -> RichMenu.request -> option RichMenu.reply)
  (rich_menu_id : value) (s : RichMenu.state) :
  RichMenu.sent
    (snd (RichMenu.set_default_rich_menu token format_value server rich_menu_id s))
  = RichMenu.sent s ++ [RichMenu.default_request token format_value rich_menu_id].
Proof.
  unfold RichMenu.set_default_rich_menu, RichMenu.default_request. step.
  destruct (server (RichMenu.sent s) _) as [answer|]; [|reflexivity].
  destruct (RichMenu.status_code answer =? 200); reflexivity.
Qed.

(** The setup sends at most three requests, in the order list, create, set
    default, and never anything else; the default is set only for a menu
    whose creation was answered 200 with a non-empty richMenuId, and for
    that id. *)
Theorem setup_request_discipline
  (token liff_app_url : string) (format_value : value -> string)
  (server : list RichMenu.request -> RichMenu.request -> option RichMenu.reply)
  (s0 : RichMenu.state) :
  let s := snd (RichMenu.main token liff_app_url format_value server s0) in
  let listing := RichMenu.list_request token in
  let creation := RichMenu.create_request token liff_app_url in
  RichMenu.sent s = RichMenu.sent s0 ++ [listing]
  \/ RichMenu.sent s = RichMenu.sent s0 ++ [listing; creation]
  \/ exists answer entries rich_menu_id,
       RichMenu.sent s
       = RichMenu.sent s0
         ++ [listing; creation;
             RichMenu.default_request token format_value rich_menu_id]
       /\ server (RichMenu.sent s0 ++ [listing]) creation = Some answer
       /\ RichMenu.status_code answer = 200
       /\ RichMenu.json_body answer = Some (VDict entries)
       /\ lookup "richMenuId" entries = Some rich_menu_id
       /\ truthy rich_menu_id = true.
Proof.
  cbv zeta. unfold RichMenu.main. step.
  pose proof (list_rich_menus_sent token server
                (RichMenu.State (RichMenu.sent s0)
                   (RichMenu.printed s0 ++ [RichMenu.Banner]))) as Hlist.
  destruct (RichMenu.list_rich_menus token server _) as [[menus|e] s1];
    cbn [snd RichMenu.sent] in *; [|now left].
  destruct (create_rich_menu_run token liff_app_url server
              (RichMenu.State (RichMenu.sent s1)
                 (RichMenu.printed s1 ++ [RichMenu.Creating])))
    as (r & s2 & Hrun & Hsent & Hid).
  rewrite Hrun. cbn [RichMenu.sent] in Hsent, Hid. rewrite Hlist in Hsent, Hid.
  rewrite <- app_assoc in Hsent. cbn [app] in Hsent.
  destruct r as [rich_menu_id|e]; cbn [snd]; [|now right; left].
  destruct (truthy rich_menu_id) eqn:Htruthy; cbn [negb snd RichMenu.sent];
    [|now right; left].
  right. right.
  destruct (Hid rich_menu_id eq_refl Htruthy)
    as (answer & entries & H1 & H2 & H3 & H4).
  exists answer, entries, rich_menu_id.
  split; [|auto].
  pose proof (set_default_rich_menu_sent token format_value server rich_menu_id
                (RichMenu.State (RichMenu.sent s2)
                   (RichMenu.printed s2 ++ [RichMenu.SettingDefault]))) as Hdefault.
  destruct (RichMenu.set_default_rich_menu token format_value server rich_menu_id _)
    as [[ok|e] s3]; cbn [snd RichMenu.sent] in *;
    rewrite Hdefault, Hsent, <- app_assoc; reflexivity.
Qed.

Lemma setup_request_discipline_example :
  RichMenu.script (Some "token"%string) (Some "https://liff.line.me/1"%string)
    RichMenu.sample_format RichMenu.sample_server
  = (RichMenu.Finished,
     RichMenu.State
       [RichMenu.list_request "token";
        RichMenu.create_request "token" "https://liff.line.me/1";
        RichMenu.default_request "token" RichMenu.sample_format
          (VStr "richmenu-1")]
       [RichMenu.Banner;
        RichMenu.ListHeader
          (VList [VDict [("richMenuId", VStr "richmenu-0");
                         ("name", VStr "Old menu")]%string]);
        RichMenu.MenuLine (VStr "Old menu") (VStr "richmenu-0");
        RichMenu.Creating;
        RichMenu.CreateSucceeded (VStr "richmenu-1");
        RichMenu.SettingDefault;
        RichMenu.DefaultSet;
        RichMenu.SetupDone;
        RichMenu.Guidance "https://liff.line.me/1" (VStr "richmenu-1")]).
Proof. vm_compute. reflexivity. Qed.

Lemma menu_lines_unprintable (items : list value) :
  forallb RichMenu.printable_menu items = false ->
  forall s,
    exists e s',
      RichMenu.for_each RichMenu.print_menu_line items s = (RichMenu.Raised e, s')
      /\ (e = RichMenu.KeyError \/ e = RichMenu.TypeError)
      /\ RichMenu.sent s' = RichMenu.sent s.
Proof.
  induction items as [|menu items IH]; intros H s; [discriminate H|].
  cbn [forallb] in H. cbn [RichMenu.for_each]. unfold RichMenu.bind at 1.
  unfold RichMenu.print_menu_line.
  destruct menu as [| | | | | |entries];
    try (eexists; eexists; split; [reflexivity|]; split; [now right | reflexivity]).
  cbn [RichMenu.printable_menu] in H. unfold RichMenu.subscript. step.
  destruct (lookup "name" entries);
    [|eexists; eexists; split; [reflexivity|]; split; [now left | reflexivity]].
  destruct (lookup "richMenuId" entries);
    [|eexists; eexists; split; [reflexivity|]; split; [now left | reflexivity]].
  cbn [andb] in H.
  destruct (IH H (RichMenu.State (RichMenu.sent s)
                    (RichMenu.printed s ++ [RichMenu.MenuLine v v0])))
    as (e & s' & Hrun & He & Hsent).
  exists e, s'. split; [exact Hrun|]. split; [exact He | exact Hsent].
Qed.

(** A listed menu the script cannot print - one without a name or an id, or
    one that is not an object - stops the setup with a KeyError or TypeError
    while the existing menus are shown: no menu is created. *)
Theorem unprintable_listing_aborts
  (token liff_app_url : string) (format_value : value -> string)
  (server : list RichMenu.request -> RichMenu.request -> option RichMenu.reply)
  (s0 : RichMenu.state) (answer : RichMenu.reply)
  (entries : list (string * value)) (menus : list value) :
  server (RichMenu.sent s0) (RichMenu.list_request token) = Some answer ->
  RichMenu.status_code answer = 200 ->
  RichMenu.json_body answer = Some (VDict entries) ->
  lookup "richmenus" entries = Some (VList menus) ->
  forallb RichMenu.printable_menu menus = false ->
  exists e s,
    RichMenu.main token liff_app_url format_value server s0 = (RichMenu.Raised e, s)
    /\ (e = RichMenu.KeyError \/ e = RichMenu.TypeError)
    /\ RichMenu.sent s = RichMenu.sent s0 ++ [RichMenu.list_request token].
Proof.
  intros Hlist Hstatus Hbody Hmenus Hbad.
  unfold RichMenu.main, RichMenu.list_rich_menus, RichMenu.list_request in *. step.
  cbn [RichMenu.sent RichMenu.printed]. rewrite Hlist, Hstatus, Hbody.
  cbn [Z.eqb Pos.eqb RichMenu.get_member]. step. rewrite Hmenus.
  cbn [RichMenu.has_len RichMenu.iterate py_iter]. step.
  match goal with
  | |- context [RichMenu.for_each RichMenu.print_menu_line menus ?s1] =>
      destruct (menu_lines_unprintable menus Hbad s1) as (e & s' & Hrun & He & Hsent)
  end.
  rewrite Hrun.
  exists e, s'. split; [reflexivity|]. split; [exact He|].
  rewrite Hsent. reflexivity.
Qed.

Lemma unprintable_listing_aborts_witness :
  RichMenu.script (Some "token"%string) (Some "https://liff.line.me/1"%string)
    RichMenu.sample_format RichMenu.nameless_listing
  = (RichMenu.Crashed RichMenu.KeyError,
     RichMenu.State
       [RichMenu.list_request "token"]
       [RichMenu.Banner;
        RichMenu.ListHeader (VList [VDict [("richMenuId", VStr "richmenu-0")]%string])]).
Proof.
  destruct (unprintable_listing_aborts "token" "https://liff.line.me/1"
              RichMenu.sample_format RichMenu.nameless_listing
              (RichMenu.State [] []) _ _ _ eq_refl eq_refl eq_refl eq_refl eq_refl)
    as (e & s & Hrun & _ & _).
  unfold RichMenu.script. cbn [String.eqb Ascii.eqb Bool.eqb].
  rewrite Hrun. vm_compute in Hrun. injection Hrun as <- <-. reflexivity.
Defined.

(** A refused listing - any status other than 200 - does not stop the
    setup: it is reported, taken as no menus, and the creation request is
    sent all the same. *)
Theorem refused_listing_goes_on
  (token liff_app_url : string) (format_value : value -> string)
  (server : list RichMenu.request -> RichMenu.request -> option RichMenu.reply)
  (s0 : RichMenu.state) (answer : RichMenu.reply) :
  server (RichMenu.sent s0) (RichMenu.list_request token) = Some answer ->
  RichMenu.status_code answer <> 200 ->
  RichMenu.list_rich_menus token server s0
  = (RichMenu.Done (VList []),
     RichMenu.State (RichMenu.sent s0 ++ [RichMenu.list_request token])
       (RichMenu.printed s0 ++ [RichMenu.ListFailed (RichMenu.status_code answer)]))
  /\ exists rest,
       RichMenu.sent (snd (RichMenu.main token liff_app_url format_value server s0))
       = RichMenu.sent s0
         ++ RichMenu.list_request token
         :: RichMenu.create_request token liff_app_url :: rest.
Proof.
  intros Hlist Hstatus. apply Z.eqb_neq in Hstatus.
  assert (Hrun : forall s, RichMenu.sent s = RichMenu.sent s0 ->
            RichMenu.list_rich_menus token server s
            = (RichMenu.Done (VList []),
               RichMenu.State (RichMenu.sent s ++ [RichMenu.list_request token])
                 (RichMenu.printed s
                  ++ [RichMenu.ListFailed (RichMenu.status_code answer)]))).
  { intros s Hs. unfold RichMenu.list_rich_menus, RichMenu.list_request in *. step.
    rewrite Hs, Hlist, Hstatus. reflexivity. }
  split; [now apply Hrun|].
  unfold RichMenu.main. step. rewrite Hrun by reflexivity.
  cbn [RichMenu.sent RichMenu.printed].
  destruct (create_rich_menu_run token liff_app_url server
              (RichMenu.State (RichMenu.sent s0 ++ [RichMenu.list_request token])
                 ((RichMenu.printed s0 ++ [RichMenu.Banner])
                  ++ [RichMenu.ListFailed (RichMenu.status_code answer)]
                  ++ [RichMenu.Creating])))
    as (r & s2 & Hcreate & Hsent & _).
  rewrite <- !app_assoc in *. cbn [app] in *. rewrite Hcreate.
  cbn [RichMenu.sent] in Hsent. rewrite <- app_assoc in Hsent. cbn [app] in Hsent.
  destruct r as [rich_menu_id|e]; cbn [snd]; [|exists []; exact Hsent].
  destruct (truthy rich_menu_id); cbn [negb snd RichMenu.sent];
    [|exists []; exact Hsent].
  pose proof (set_default_rich_menu_sent token format_value server rich_menu_id
                (RichMenu.State (RichMenu.sent s2)
                   (RichMenu.printed s2 ++ [RichMenu.SettingDefault]))) as Hdefault.
  destruct (RichMenu.set_default_rich_menu token format_value server rich_menu_id _)
    as [[ok|e] s3]; cbn [snd RichMenu.sent] in *;
    rewrite Hdefault, Hsent, <- app_assoc; eexists; reflexivity.
Qed.

Lemma refused_listing_goes_on_witness :
  RichMenu.refusing_listing [] (RichMenu.list_request "token")
  = Some (RichMenu.Reply 500 None "Internal error")
  /\ 500 <> 200
  /\ exists rest,
       RichMenu.sent
         (snd (RichMenu.main "token" "https://liff.line.me/1" RichMenu.sample_format
                 RichMenu.refusing_listing (RichMenu.State [] [])))
       = RichMenu.list_request "token"
         :: RichMenu.create_request "token" "https://liff.line.me/1" :: rest.
Proof.
  split; [reflexivity|]. split; [discriminate|].
  apply (proj2 (refused_listing_goes_on "token" "https://liff.line.me/1"
                  RichMenu.sample_format RichMenu.refusing_listing
                  (RichMenu.State [] []) (RichMenu.Reply 500 None "Internal error")
                  eq_refl ltac:(discriminate))).
Defined.

(** When setting the default menu is refused the script still ends as a
    completed setup: the refusal is printed, followed by the completion
    message and the guidance, and nothing is retried or undone. *)
Theorem refused_default_reported_done
  (token liff_app_url : string) (format_value : value -> string)
  (server : list RichMenu.request -> RichMenu.request -> option RichMenu.reply)
  (s0 s1 : RichMenu.state) (menus : value) (created refused : RichMenu.reply)
  (entries : list (string * value)) (rich_menu_id : value) :
  RichMenu.list_rich_menus token server
    (RichMenu.State (RichMenu.sent s0) (RichMenu.printed s0 ++ [RichMenu.Banner]))
  = (RichMenu.Done menus, s1) ->
  server (RichMenu.sent s1) (RichMenu.create_request token liff_app_url)
  = Some created ->
  RichMenu.status_code created = 200 ->
  RichMenu.json_body created = Some (VDict entries) ->
  lookup "richMenuId" entries = Some rich_menu_id ->
  truthy rich_menu_id = true ->
  server (RichMenu.sent s1 ++ [RichMenu.create_request token liff_app_url])
         (RichMenu.default_request token format_value rich_menu_id)
  = Some refused ->
  RichMenu.status_code refused <> 200 ->
  RichMenu.main token liff_app_url format_value server s0
  = (RichMenu.Done tt,
     RichMenu.State
       (RichMenu.sent s1
        ++ [RichMenu.create_request token liff_app_url;
            RichMenu.default_request token format_value rich_menu_id])
       (RichMenu.printed s1
        ++ [RichMenu.Creating;
            RichMenu.CreateSucceeded rich_menu_id;
            RichMenu.SettingDefault;
            RichMenu.DefaultFailed (RichMenu.status_code refused)
              (RichMenu.text refused);
            RichMenu.SetupDone;
            RichMenu.Guidance liff_app_url rich_menu_id])).
Proof.
  intros Hlist Hcreate Hstatus Hbody Hid Htruthy Hdefault Hrefused.
  apply Z.eqb_neq in Hrefused.
  unfold RichMenu.main. step. rewrite Hlist.
  unfold RichMenu.create_rich_menu, RichMenu.set_default_rich_menu,
    RichMenu.create_request, RichMenu.default_request in *. step.
  cbn [RichMenu.sent RichMenu.printed]. rewrite Hcreate, Hstatus, Hbody.
  cbn [Z.eqb Pos.eqb RichMenu.subscript]. step. rewrite Hid.
  cbn [RichMenu.sent RichMenu.printed]. rewrite Htruthy. cbn [negb].
  cbn [RichMenu.sent RichMenu.printed]. rewrite Hdefault, Hrefused.
  cbn [RichMenu.sent RichMenu.printed]. rewrite <- !app_assoc. reflexivity.
Qed.

Lemma refused_default_reported_done_witness :
  RichMenu.script (Some "token"%string) (Some "https://liff.line.me/1"%string)
    RichMenu.sample_format RichMenu.refusing_default
  = (RichMenu.Finished,
     RichMenu.State
       [RichMenu.list_request "token";
        RichMenu.create_request "token" "https://liff.line.me/1";
        RichMenu.default_request "token" RichMenu.sample_format
          (VStr "richmenu-1")]
       [RichMenu.Banner;
        RichMenu.ListHeader
          (VList [VDict [("richMenuId", VStr "richmenu-0");
                         ("name", VStr "Old menu")]%string]);
        RichMenu.MenuLine (VStr "Old menu") (VStr "richmenu-0");
        RichMenu.Creating;
        RichMenu.CreateSucceeded (VStr "richmenu-1");
        RichMenu.SettingDefault;
        RichMenu.DefaultFailed 404 "Not found";
        RichMenu.SetupDone;
        RichMenu.Guidance "https://liff.line.me/1" (VStr "richmenu-1")]).
Proof.
  unfold RichMenu.script. cbn [String.eqb Ascii.eqb Bool.eqb].
  rewrite (refused_default_reported_done "token" "https://liff.line.me/1"
             RichMenu.sample_format RichMenu.refusing_default
             (RichMenu.State [] [])
             (RichMenu.State
                [RichMenu.list_request "token"]
                [RichMenu.Banner;
                 RichMenu.ListHeader
                   (VList [VDict [("richMenuId", VStr "richmenu-0");
                                  ("name", VStr "Old menu")]%string]);
                 RichMenu.MenuLine (VStr "Old menu") (VStr "richmenu-0")])
             (VList [VDict [("richMenuId", VStr "richmenu-0");
                            ("name", VStr "Old menu")]%string])
             (RichMenu.Reply 200
                (Some (VDict [("richMenuId", VStr "richmenu-1")]%string)) "")
             (RichMenu.Reply 404 (Some (VDict [])) "Not found")
             [("richMenuId", VStr "richmenu-1")]%string (VStr "richmenu-1")
             eq_refl eq_refl eq_refl eq_refl eq_refl eq_refl eq_refl
             ltac:(discriminate)).
  reflexivity.
Defined.

(** A creation answered 200 with an empty (or null, or zero) richMenuId is
    announced as a success and then reported as a failure: the script stops
    without setting a default, leaving the menu it created. *)
Theorem empty_id_stops_setup
  (token liff_app_url : string) (format_value : value -> string)
  (server : list RichMenu.request -> RichMenu.request -> option RichMenu.reply)
  (s0 s1 : RichMenu.state) (menus : value) (created : RichMenu.reply)
  (entries : list (string * value)) (rich_menu_id : value) :
  RichMenu.list_rich_menus token server
    (RichMenu.State (RichMenu.sent s0) (RichMenu.printed s0 ++ [RichMenu.Banner]))
  = (RichMenu.Done menus, s1) ->
  server (RichMenu.sent s1) (RichMenu.create_request token liff_app_url)
  = Some created ->
  RichMenu.status_code created = 200 ->
  RichMenu.json_body created = Some (VDict entries) ->
  lookup "richMenuId" entries = Some rich_menu_id ->
  truthy rich_menu_id = false ->
  RichMenu.main token liff_app_url format_value server s0
  = (RichMenu.Done tt,
     RichMenu.State
       (RichMenu.sent s1 ++ [RichMenu.create_request token liff_app_url])
       (RichMenu.printed s1
        ++ [RichMenu.Creating;
            RichMenu.CreateSucceeded rich_menu_id;
            RichMenu.SetupFailed])).
Proof.
  intros Hlist Hcreate Hstatus Hbody Hid Htruthy.
  unfold RichMenu.main. step. rewrite Hlist.
  unfold RichMenu.create_rich_menu, RichMenu.create_request in *. step.
  cbn [RichMenu.sent RichMenu.printed]. rewrite Hcreate, Hstatus, Hbody.
  cbn [Z.eqb Pos.eqb RichMenu.subscript]. step. rewrite Hid.
  cbn [RichMenu.sent RichMenu.printed]. rewrite Htruthy. cbn [negb].
  cbn [RichMenu.sent RichMenu.printed]. rewrite <- !app_assoc. reflexivity.
Qed.

Lemma empty_id_stops_setup_witness :
  RichMenu.script (Some "token"%string) (Some "https://liff.line.me/1"%string)
    RichMenu.sample_format RichMenu.empty_id
  = (RichMenu.Finished,
     RichMenu.State
       [RichMenu.list_request "token";
        RichMenu.create_request "token" "https://liff.line.me/1"]
       [RichMenu.Banner;
        RichMenu.ListHeader
          (VList [VDict [("richMenuId", VStr "richmenu-0");
                         ("name", VStr "Old menu")]%string]);
        RichMenu.MenuLine (VStr "Old menu") (VStr "richmenu-0");
        RichMenu.Creating;
        RichMenu.CreateSucceeded (VStr "");
        RichMenu.SetupFailed]).
Proof.
  unfold RichMenu.script. cbn [String.eqb Ascii.eqb Bool.eqb].
  rewrite (empty_id_stops_setup "token" "https://liff.line.me/1"
             RichMenu.sample_format RichMenu.empty_id
             (RichMenu.State [] [])
             (RichMenu.State
                [RichMenu.list_request "token"]
                [RichMenu.Banner;
                 RichMenu.ListHeader
                   (VList [VDict [("richMenuId", VStr "richmenu-0");
                                  ("name", VStr "Old menu")]%string]);
                 RichMenu.MenuLine (VStr "Old menu") (VStr "richmenu-0")])
             (VList [VDict [("richMenuId", VStr "richmenu-0");
                            ("name", VStr "Old menu")]%string])
             (RichMenu.Reply 200 (Some (VDict [("richMenuId", VStr "")]%string)) "")
             [("richMenuId", VStr "")]%string (VStr "")
             eq_refl eq_refl eq_refl eq_refl eq_refl eq_refl).
  reflexivity.
Defined.
